(** * Workflow metrics of the Dapr runtime (pkg/diagnostics/workflow_monitoring.go)

    A shallow embedding of the [workflowMetrics] recorder: its state, the
    constructor, [IsEnabled], [Init], [WorkflowOperationEvent] and
    [ExecutionEvent], together with the part of the OpenCensus backend the
    recorder talks to (view registry and the stream of recorded
    measurements).

    Go pointers that may be nil are [option]s; a nil dereference is a panic
    of the small state-and-panic monad [M] below.  [float64] values are
    IEEE-754 data ([spec_float]); the only float operation the package
    performs is the comparison [elapsed > 0]. *)

From Stdlib Require Import String List Bool ZArith Lia.
From Stdlib Require Import Floats.SpecFloat.
Import ListNotations.
Local Open Scope string_scope.
Local Open Scope list_scope.

(** ** OpenCensus data: tag keys, measures, measurements, views *)

(** [tag.Key]: an interned key name. *)
Record Key : Type := { key_name : string }.

(** [tag.MustNewKey(name)] for the (valid) literal names of this package. *)
Definition tag_MustNewKey (name : string) : Key := {| key_name := name |}.

(** [tag.Mutator]: the package only ever builds [tag.Upsert(key, value)]. *)
Inductive Mutator : Type :=
| Upsert (k : Key) (v : string).

(** [stats.UnitDimensionless] and [stats.UnitMilliseconds]. *)
Inductive Unit : Type :=
| UnitDimensionless
| UnitMilliseconds.

(** [*stats.Int64Measure] and [*stats.Float64Measure] point to these. *)
Record Int64Measure : Type :=
  { Int64_Name : string; Int64_Description : string; Int64_Unit : Unit }.

Record Float64Measure : Type :=
  { Float64_Name : string; Float64_Description : string; Float64_Unit : Unit }.

(** [stats.Int64(name, description, unit)] and [stats.Float64(...)]: both
    return a non-nil pointer. *)
Definition stats_Int64 (name description : string) (unit : Unit)
  : option Int64Measure :=
  Some {| Int64_Name := name; Int64_Description := description;
          Int64_Unit := unit |}.

Definition stats_Float64 (name description : string) (unit : Unit)
  : option Float64Measure :=
  Some {| Float64_Name := name; Float64_Description := description;
          Float64_Unit := unit |}.

(** The interface [stats.Measure], implemented by both pointer types. *)
Inductive Measure : Type :=
| OfInt64 (m : Int64Measure)
| OfFloat64 (m : Float64Measure).

Definition Measure_Name (m : Measure) : string :=
  match m with
  | OfInt64 i => Int64_Name i
  | OfFloat64 f => Float64_Name f
  end.

(** Go's [float64]. *)
Definition float64 : Type := spec_float.

Definition float64_zero : float64 := S754_zero false.

(** [a > b] on [float64]; false as soon as one side is NaN. *)
Definition float64_gt (a b : float64) : bool := SFltb b a.

(** [a <= b] on [float64]. *)
Definition float64_le (a b : float64) : bool := SFleb a b.

(** [stats.Measurement], what [m.M(v)] builds. *)
Inductive Measurement : Type :=
| Int64_M (m : Int64Measure) (v : Z)
| Float64_M (m : Float64Measure) (v : float64).

(** [*view.Aggregation]. *)
Inductive Aggregation : Type :=
| view_Count
| view_Distribution (bounds : list Z).

(** [view.View], restricted to the fields the registry compares. *)
Record View : Type :=
  { Name : string;
    ViewMeasure : Measure;
    TagKeys : list Key;
    ViewAggregation : Aggregation }.

(** [context.Context]: the recorder never inspects it, it is handed to the
    backend as it came.  A context is the background one or carries tags. *)
Inductive Context : Type :=
| context_Background
| context_WithTag (k : Key) (v : string) (parent : Context).

(** One call of [stats.RecordWithTags(ctx, mutators, measurement)] as the
    backend receives it. *)
Record Observation : Type :=
  { obs_ctx : Context;
    obs_tags : list Mutator;
    obs_measurement : Measurement }.

(** Go's [error] for this package: nil, or the one error view registration
    can produce. *)
Inductive Error : Type :=
| RegistrationError (viewName : string).

Definition error : Type := option Error.

(** ** Decidable equality of tag keys and aggregations *)

Definition Key_eq_dec (a b : Key) : {a = b} + {a <> b}.
Proof. decide equality; apply string_dec. Defined.

Definition Aggregation_eq_dec (a b : Aggregation) : {a = b} + {a <> b}.
Proof. decide equality; apply (list_eq_dec Z.eq_dec). Defined.

(** ** The recorder state *)

(** [type workflowMetrics struct].  The four measure handles are pointers. *)
Record workflowMetrics : Type :=
  { workflowOperationCount : option Int64Measure;
    workflowOperationLatency : option Float64Measure;
    workflowExecutionCount : option Int64Measure;
    workflowExecutionLatency : option Float64Measure;
    appID : string;
    enabled : bool;
    namespace : string }.

Definition set_appID (v : string) (w : workflowMetrics) : workflowMetrics :=
  {| workflowOperationCount := workflowOperationCount w;
     workflowOperationLatency := workflowOperationLatency w;
     workflowExecutionCount := workflowExecutionCount w;
     workflowExecutionLatency := workflowExecutionLatency w;
     appID := v;
     enabled := enabled w;
     namespace := namespace w |}.

Definition set_enabled (v : bool) (w : workflowMetrics) : workflowMetrics :=
  {| workflowOperationCount := workflowOperationCount w;
     workflowOperationLatency := workflowOperationLatency w;
     workflowExecutionCount := workflowExecutionCount w;
     workflowExecutionLatency := workflowExecutionLatency w;
     appID := appID w;
     enabled := v;
     namespace := namespace w |}.

Definition set_namespace (v : string) (w : workflowMetrics) : workflowMetrics :=
  {| workflowOperationCount := workflowOperationCount w;
     workflowOperationLatency := workflowOperationLatency w;
     workflowExecutionCount := workflowExecutionCount w;
     workflowExecutionLatency := workflowExecutionLatency w;
     appID := appID w;
     enabled := enabled w;
     namespace := v |}.

(** What a call can touch: the object behind the [*workflowMetrics] receiver
    ([None] is the nil receiver), the backend's view registry and the
    measurements the backend has received so far, oldest first. *)
Record World : Type :=
  { recv : option workflowMetrics;
    views : list View;
    recorded : list Observation }.

(** ** State-and-panic monad *)

Inductive Result (A : Type) : Type :=
| Ret (a : A)
| Panic (msg : string).

Arguments Ret {A} a.
Arguments Panic {A} msg.

(** A computation transforms the world and returns or panics; the world
    reached at a panic is kept. *)
Definition M (A : Type) : Type := World -> World * Result A.

Definition ret {A : Type} (a : A) : M A := fun s => (s, Ret a).

Definition bind {A B : Type} (c : M A) (k : A -> M B) : M B :=
  fun s =>
    match c s with
    | (s', Ret a) => k a s'
    | (s', Panic msg) => (s', Panic msg)
    end.

Definition panic {A : Type} (msg : string) : M A := fun s => (s, Panic msg).

Definition run {A : Type} (c : M A) (s : World) : World * Result A := c s.

Declare Scope go_scope.
Delimit Scope go_scope with go.
Notation "x <- c ;; k" := (bind c (fun x => k))
  (at level 61, c at next level, right associativity) : go_scope.
Notation "c ;; k" := (bind c (fun _ => k))
  (at level 61, right associativity) : go_scope.
Local Open Scope go_scope.

Definition nil_dereference : string :=
  "invalid memory address or nil pointer dereference".

(** [w != nil] on the receiver. *)
Definition recv_not_nil : M bool :=
  fun s => (s, Ret (match recv s with Some _ => true | None => false end)).

(** Reading through the receiver, [w.f]. *)
Definition load : M workflowMetrics :=
  fun s =>
    match recv s with
    | Some w => (s, Ret w)
    | None => (s, Panic nil_dereference)
    end.

(** Writing through the receiver, [w.f = v]. *)
Definition store (upd : workflowMetrics -> workflowMetrics) : M unit :=
  fun s =>
    match recv s with
    | Some w =>
        ({| recv := Some (upd w); views := views s; recorded := recorded s |},
         Ret tt)
    | None => (s, Panic nil_dereference)
    end.

(** Calling a method that reads its (pointer) receiver, [h.Name()],
    [h.M(v)]. *)
Definition deref {A : Type} (h : option A) : M A :=
  match h with
  | Some m => ret m
  | None => panic nil_dereference
  end.

(** ** The backend: view registry and recording *)

(** Modelled from the spec: [stats.RecordWithTags(ctx, mutators, ms)]
    belongs to the external aggregation backend; a call pushes one
    observation into it.  Its error result is discarded by every caller in
    this package, so the model returns nothing. *)
Definition stats_RecordWithTags
  (ctx : Context) (mutators : list Mutator) (ms : Measurement) : M unit :=
  fun s =>
    ({| recv := recv s;
        views := views s;
        recorded := recorded s ++ [ {| obs_ctx := ctx;
                                       obs_tags := mutators;
                                       obs_measurement := ms |} ] |},
     Ret tt).

(** The registered view of a given name, if any. *)
Definition registered (name : string) (reg : list View) : option View :=
  find (fun x => String.eqb (Name x) name) reg.

(** Two views agree when they have the same tag keys and the same
    aggregation. *)
Definition same_definition (x v : View) : bool :=
  if list_eq_dec Key_eq_dec (TagKeys x) (TagKeys v) then
    if Aggregation_eq_dec (ViewAggregation x) (ViewAggregation v) then true
    else false
  else false.

(** Modelled from the spec: [view.Register] belongs to the external
    aggregation backend.  It fails when a view with the same name already
    exists with a different tag-key set or aggregation, and that is its
    only error.  The views of one call are taken left to right: a new name
    is added, a name registered with the same definition is left alone. *)
Fixpoint register_all (vs : list View) (reg : list View) : list View * error :=
  match vs with
  | [] => (reg, None)
  | v :: rest =>
      match registered (Name v) reg with
      | Some x =>
          if same_definition x v then register_all rest reg
          else (reg, Some (RegistrationError (Name v)))
      | None => register_all rest (reg ++ [v])
      end
  end.

(** A view is known to a registry when its name is registered with the
    same definition. *)
Definition known (reg : list View) (v : View) : Prop :=
  exists x, registered (Name v) reg = Some x /\ same_definition x v = true.

(** [view.Register(views...)]. *)
Definition view_Register (vs : list View) : M error :=
  fun s =>
    let (reg, err) := register_all vs (views s) in
    ({| recv := recv s; views := reg; recorded := recorded s |}, Ret err).

(** ** Package-level declarations *)

(** Declared in this file of the package. *)
Definition executionTypeKey : Key := tag_MustNewKey "execution_type".

(** Modelled from the spec: the tag keys [appIDKey], [componentKey],
    [namespaceKey], [operationKey] and [statusKey] are declared elsewhere in
    package diagnostics; their names are the ones of the tagged observation
    [{app_id, namespace, component, operation, status}]. *)
Definition appIDKey : Key := tag_MustNewKey "app_id".
Definition componentKey : Key := tag_MustNewKey "component".
Definition namespaceKey : Key := tag_MustNewKey "namespace".
Definition operationKey : Key := tag_MustNewKey "operation".
Definition statusKey : Key := tag_MustNewKey "status".

(** Modelled from the spec: [defaultLatencyDistribution] is declared
    elsewhere in package diagnostics; it is a fixed latency-bucket
    histogram.  The bucket bounds are a parameter of the model. *)
Definition defaultLatencyDistribution (bounds : list Z) : Aggregation :=
  view_Distribution bounds.

Definition StatusSuccess : string := "success".
Definition StatusFailed : string := "failed".
Definition StatusRecoverable : string := "recoverable".
Definition CreateWorkflow : string := "create_workflow".
Definition GetWorkflow : string := "get_workflow".
Definition AddEvent : string := "add_event".
Definition PurgeWorkflow : string := "purge_workflow".
Definition Activity : string := "activity".
Definition Workflow : string := "workflow".
Definition WorkflowEvent : string := "event".
Definition Timer : string := "timer".
Definition ComponentName : string := "dapr".

(** ** Helpers of pkg/diagnostics/utils *)

(** An argument of the variadic [opts ...interface{}] of [WithTags]. *)
Inductive Arg : Type :=
| AKey (k : Key)
| AString (v : string).

(** Modelled from the spec: [diagUtils.WithTags(name, key1, value1, ...)]
    lives in pkg/diagnostics/utils; it produces the ordered key-value pairs
    of the event, one [tag.Upsert] per pair. *)
Fixpoint diagUtils_WithTags (name : string) (opts : list Arg) : list Mutator :=
  match opts with
  | AKey k :: AString v :: rest => Upsert k v :: diagUtils_WithTags name rest
  | _ => []
  end.

(** Modelled from the spec: [diagUtils.NewMeasureView(measure, keys,
    aggregation)] lives in pkg/diagnostics/utils; it binds one measure to an
    ordered set of tag keys and an aggregation, under the measure's name.
    Reading the name of a nil measure handle panics. *)
Definition diagUtils_NewMeasureView
  (measure : option Measure) (keys : list Key) (aggregation : Aggregation)
  : M View :=
  m <- deref measure ;;
  ret {| Name := Measure_Name m;
         ViewMeasure := m;
         TagKeys := keys;
         ViewAggregation := aggregation |}.

(** A [*stats.Int64Measure] / [*stats.Float64Measure] passed where a
    [stats.Measure] is expected. *)
Definition as_Int64 (h : option Int64Measure) : option Measure :=
  option_map OfInt64 h.

Definition as_Float64 (h : option Float64Measure) : option Measure :=
  option_map OfFloat64 h.

(** ** workflow_monitoring.go *)

(** The struct literal of [newWorkflowMetrics]: the four measures are
    created, the other fields have their zero values. *)
Definition newWorkflowMetrics_literal : workflowMetrics :=
    {| workflowOperationCount :=
         stats_Int64
           "runtime/workflow/operation/count"
           "The number of successful/failed workflow operation requests."
           UnitDimensionless;
       workflowOperationLatency :=
         stats_Float64
           "runtime/workflow/operation/latency"
           "The latencies of responses for workflow operation requests."
           UnitMilliseconds;
       workflowExecutionCount :=
         stats_Int64
           "runtime/workflow/execution/count"
           "The number of successful/failed/recoverable workflow/activity executions."
           UnitDimensionless;
       workflowExecutionLatency :=
         stats_Float64
           "runtime/workflow/execution/latency"
           "The total time taken to run a workflow/activity to completion."
           UnitMilliseconds;
       appID := EmptyString;
       enabled := false;
       namespace := EmptyString |}.

(** [func newWorkflowMetrics() *workflowMetrics]: the address of that
    literal, never nil. *)
Definition newWorkflowMetrics : option workflowMetrics :=
  Some newWorkflowMetrics_literal.

(** [func (w *workflowMetrics) IsEnabled() bool]:
    [return w != nil && w.enabled]. *)
Definition IsEnabled : M bool :=
  nn <- recv_not_nil ;;
  if nn then (w <- load ;; ret (enabled w)) else ret false.

Section Package.

(** Bucket bounds of [defaultLatencyDistribution]. *)
Variable latencyBounds : list Z.

(** The four views [Init] registers, for a recorder [w]. *)
Definition operationKeys : list Key :=
  [appIDKey; componentKey; namespaceKey; operationKey; statusKey].

Definition executionKeys : list Key :=
  [appIDKey; componentKey; namespaceKey; executionTypeKey; statusKey].

(** [func (w *workflowMetrics) Init(appID, namespace string) error]. *)
Definition Init (appID namespace : string) : M error :=
  store (set_appID appID) ;;
  store (set_enabled true) ;;
  store (set_namespace namespace) ;;
  w <- load ;;
  v1 <- diagUtils_NewMeasureView (as_Int64 (workflowOperationCount w))
          operationKeys view_Count ;;
  v2 <- diagUtils_NewMeasureView (as_Float64 (workflowOperationLatency w))
          operationKeys (defaultLatencyDistribution latencyBounds) ;;
  v3 <- diagUtils_NewMeasureView (as_Int64 (workflowExecutionCount w))
          executionKeys view_Count ;;
  v4 <- diagUtils_NewMeasureView (as_Float64 (workflowExecutionLatency w))
          executionKeys (defaultLatencyDistribution latencyBounds) ;;
  view_Register [v1; v2; v3; v4].

End Package.

(** The tags of a workflow operation event. *)
Definition operationTags (w : workflowMetrics) (operation component status : string)
  : list Arg :=
  [AKey appIDKey; AString (appID w);
   AKey componentKey; AString component;
   AKey namespaceKey; AString (namespace w);
   AKey operationKey; AString operation;
   AKey statusKey; AString status].

(** The tags of an execution event. *)
Definition executionTags (w : workflowMetrics) (component executionType status : string)
  : list Arg :=
  [AKey appIDKey; AString (appID w);
   AKey componentKey; AString component;
   AKey namespaceKey; AString (namespace w);
   AKey executionTypeKey; AString executionType;
   AKey statusKey; AString status].

(** [func (w *workflowMetrics) WorkflowOperationEvent(ctx, operation,
    component, status string, elapsed float64)]. *)
Definition WorkflowOperationEvent
  (ctx : Context) (operation component status : string) (elapsed : float64)
  : M unit :=
  en <- IsEnabled ;;
  if negb en then ret tt
  else
    w <- load ;;
    cnt <- deref (workflowOperationCount w) ;;
    stats_RecordWithTags ctx
      (diagUtils_WithTags (Int64_Name cnt)
         (operationTags w operation component status))
      (Int64_M cnt 1) ;;
    if float64_gt elapsed float64_zero then
      w <- load ;;
      lat <- deref (workflowOperationLatency w) ;;
      stats_RecordWithTags ctx
        (diagUtils_WithTags (Float64_Name lat)
           (operationTags w operation component status))
        (Float64_M lat elapsed)
    else ret tt.

(** [func (w *workflowMetrics) ExecutionEvent(ctx, component, executionType,
    status string, elapsed float64)]. *)
Definition ExecutionEvent
  (ctx : Context) (component executionType status : string) (elapsed : float64)
  : M unit :=
  en <- IsEnabled ;;
  if negb en then ret tt
  else
    w <- load ;;
    cnt <- deref (workflowExecutionCount w) ;;
    stats_RecordWithTags ctx
      (diagUtils_WithTags (Int64_Name cnt)
         (executionTags w component executionType status))
      (Int64_M cnt 1) ;;
    if float64_gt elapsed float64_zero then
      w <- load ;;
      lat <- deref (workflowExecutionLatency w) ;;
      stats_RecordWithTags ctx
        (diagUtils_WithTags (Float64_Name lat)
           (executionTags w component executionType status))
        (Float64_M lat elapsed)
    else ret tt.

(** ** Call sequences on the process-wide recorder *)

(** The operations the package exposes to its host. *)
Inductive Call : Type :=
| CallInit (appID namespace : string)
| CallWorkflowOperationEvent
    (ctx : Context) (operation component status : string) (elapsed : float64)
| CallExecutionEvent
    (ctx : Context) (component executionType status : string) (elapsed : float64)
| CallIsEnabled.

Section Calls.

Variable latencyBounds : list Z.

(** One call, its result dropped. *)
Definition perform (c : Call) : M unit :=
  match c with
  | CallInit a n => Init latencyBounds a n ;; ret tt
  | CallWorkflowOperationEvent ctx op comp st el =>
      WorkflowOperationEvent ctx op comp st el
  | CallExecutionEvent ctx comp ty st el =>
      ExecutionEvent ctx comp ty st el
  | CallIsEnabled => IsEnabled ;; ret tt
  end.

(** Calls in program order; a panic ends the sequence. *)
Fixpoint perform_all (cs : list Call) : M unit :=
  match cs with
  | [] => ret tt
  | c :: rest => perform c ;; perform_all rest
  end.

End Calls.

(** The world right after [newWorkflowMetrics()] built the recorder, for a
    backend in any condition. *)
Definition start (reg : list View) (obs : list Observation) : World :=
  {| recv := newWorkflowMetrics; views := reg; recorded := obs |}.

(** The worlds the host can be in: those a sequence of calls that returned
    leads to from a freshly constructed recorder. *)
Definition Reachable (latencyBounds : list Z) (s : World) : Prop :=
  exists reg obs cs,
    run (perform_all latencyBounds cs) (start reg obs) = (s, Ret tt).

(** What [IsEnabled] reads, as a plain function of the world. *)
Definition is_enabled (s : World) : bool :=
  match recv s with
  | Some w => enabled w
  | None => false
  end.

(** All four measure handles are non-nil. *)
Definition handles_set (w : workflowMetrics) : bool :=
  match workflowOperationCount w, workflowOperationLatency w,
        workflowExecutionCount w, workflowExecutionLatency w with
  | Some _, Some _, Some _, Some _ => true
  | _, _, _, _ => false
  end.

(** The views [Init] hands to [view.Register], when all handles are set. *)
Definition init_views (latencyBounds : list Z) (w : workflowMetrics) : list View :=
  match workflowOperationCount w, workflowOperationLatency w,
        workflowExecutionCount w, workflowExecutionLatency w with
  | Some oc, Some ol, Some ec, Some el =>
      [ {| Name := Int64_Name oc; ViewMeasure := OfInt64 oc;
           TagKeys := operationKeys; ViewAggregation := view_Count |};
        {| Name := Float64_Name ol; ViewMeasure := OfFloat64 ol;
           TagKeys := operationKeys;
           ViewAggregation := defaultLatencyDistribution latencyBounds |};
        {| Name := Int64_Name ec; ViewMeasure := OfInt64 ec;
           TagKeys := executionKeys; ViewAggregation := view_Count |};
        {| Name := Float64_Name el; ViewMeasure := OfFloat64 el;
           TagKeys := executionKeys;
           ViewAggregation := defaultLatencyDistribution latencyBounds |} ]
  | _, _, _, _ => []
  end.

(** The recorder after the three assignments of [Init]. *)
Definition initialised (a n : string) (w : workflowMetrics) : workflowMetrics :=
  set_namespace n (set_enabled true (set_appID a w)).

(** ** [Init], cut between its second and its third assignment

    [Init] has no lock and no atomic: a call running on another goroutine
    can execute between any two of its statements.  The two parts below are
    [Init] up to and from the point between [w.enabled = true] and
    [w.namespace = namespace]. *)

(** Lines 87 and 88 of [Init]: [w.appID = appID] and [w.enabled = true]. *)
Definition Init_lines_87_88 (appID : string) : M unit :=
  store (set_appID appID) ;;
  store (set_enabled true).

Section InitRest.

Variable latencyBounds : list Z.

(** Line 89 to the end of [Init]: [w.namespace = namespace] and the return
    statement with the registration. *)
Definition Init_lines_89_95 (namespace : string) : M error :=
  store (set_namespace namespace) ;;
  w <- load ;;
  v1 <- diagUtils_NewMeasureView (as_Int64 (workflowOperationCount w))
          operationKeys view_Count ;;
  v2 <- diagUtils_NewMeasureView (as_Float64 (workflowOperationLatency w))
          operationKeys (defaultLatencyDistribution latencyBounds) ;;
  v3 <- diagUtils_NewMeasureView (as_Int64 (workflowExecutionCount w))
          executionKeys view_Count ;;
  v4 <- diagUtils_NewMeasureView (as_Float64 (workflowExecutionLatency w))
          executionKeys (defaultLatencyDistribution latencyBounds) ;;
  view_Register [v1; v2; v3; v4].

End InitRest.

(** ** A backend that already holds a conflicting view

    The earlier variant of this component (workflow_metrics.go) registers
    "runtime/workflow/execution/latency" with the tag keys
    [{appIDKey, executionTypeKey, statusKey}]. *)
Definition legacyExecutionLatencyView (latencyBounds : list Z) : View :=
  {| Name := "runtime/workflow/execution/latency";
     ViewMeasure :=
       OfFloat64
         {| Float64_Name := "runtime/workflow/execution/latency";
            Float64_Description :=
              "The total time taken to run a workflow/activity to completion.";
            Float64_Unit := UnitMilliseconds |};
     TagKeys := [appIDKey; executionTypeKey; statusKey];
     ViewAggregation := defaultLatencyDistribution latencyBounds |}.

(** 12.5, the elapsed time of the running example. *)
Definition elapsed_12_5 : float64 := S754_finite false 25 (-1).

(** Bucket bounds to run examples with. *)
Definition exampleBounds : list Z := [1; 2; 3; 4; 5; 10; 15; 20; 25; 30]%Z.

(** A backend in which the earlier variant's view is registered, and a
    freshly constructed recorder. *)
Definition conflicting_start : World :=
  start [legacyExecutionLatencyView exampleBounds] [].

(** The recorder's effect of one call on a recorder whose handles are set:
    only [Init] writes to it. *)
Definition apply_call (c : Call) (w : workflowMetrics) : workflowMetrics :=
  match c with
  | CallInit a n => initialised a n w
  | _ => w
  end.

Definition apply_calls (cs : list Call) (w : workflowMetrics) : workflowMetrics :=
  fold_left (fun acc c => apply_call c acc) cs w.

(** ** Vocabulary of the statements *)

(** The four measures [newWorkflowMetrics] creates. *)
Definition operationCountMeasure : Int64Measure :=
  {| Int64_Name := "runtime/workflow/operation/count";
     Int64_Description :=
       "The number of successful/failed workflow operation requests.";
     Int64_Unit := UnitDimensionless |}.

Definition operationLatencyMeasure : Float64Measure :=
  {| Float64_Name := "runtime/workflow/operation/latency";
     Float64_Description :=
       "The latencies of responses for workflow operation requests.";
     Float64_Unit := UnitMilliseconds |}.

Definition executionCountMeasure : Int64Measure :=
  {| Int64_Name := "runtime/workflow/execution/count";
     Int64_Description :=
       "The number of successful/failed/recoverable workflow/activity executions.";
     Int64_Unit := UnitDimensionless |}.

Definition executionLatencyMeasure : Float64Measure :=
  {| Float64_Name := "runtime/workflow/execution/latency";
     Float64_Description :=
       "The total time taken to run a workflow/activity to completion.";
     Float64_Unit := UnitMilliseconds |}.

(** The measure handles of a recorder. *)
Definition handles (w : workflowMetrics)
  : option Int64Measure * option Float64Measure *
    option Int64Measure * option Float64Measure :=
  (workflowOperationCount w, workflowOperationLatency w,
   workflowExecutionCount w, workflowExecutionLatency w).

(** Tags [{appID, component, namespace, operation, status}] of a workflow
    operation, with the recorder's appID and namespace. *)
Definition operation_tags_of
  (w : workflowMetrics) (operation component status : string) : list Mutator :=
  [Upsert appIDKey (appID w); Upsert componentKey component;
   Upsert namespaceKey (namespace w); Upsert operationKey operation;
   Upsert statusKey status].

(** Tags [{appID, component, namespace, executionType, status}] of an
    execution. *)
Definition execution_tags_of
  (w : workflowMetrics) (component executionType status : string) : list Mutator :=
  [Upsert appIDKey (appID w); Upsert componentKey component;
   Upsert namespaceKey (namespace w); Upsert executionTypeKey executionType;
   Upsert statusKey status].

(** One increment of 1 of the operation counter. *)
Definition operation_count_obs
  (w : workflowMetrics) (ctx : Context) (operation component status : string)
  : Observation :=
  {| obs_ctx := ctx;
     obs_tags := operation_tags_of w operation component status;
     obs_measurement := Int64_M operationCountMeasure 1 |}.

(** One observation of [elapsed] in the operation-latency distribution. *)
Definition operation_latency_obs
  (w : workflowMetrics) (ctx : Context) (operation component status : string)
  (elapsed : float64) : Observation :=
  {| obs_ctx := ctx;
     obs_tags := operation_tags_of w operation component status;
     obs_measurement := Float64_M operationLatencyMeasure elapsed |}.

(** One increment of 1 of the execution counter. *)
Definition execution_count_obs
  (w : workflowMetrics) (ctx : Context) (component executionType status : string)
  : Observation :=
  {| obs_ctx := ctx;
     obs_tags := execution_tags_of w component executionType status;
     obs_measurement := Int64_M executionCountMeasure 1 |}.

(** One observation of [elapsed] in the execution-latency distribution. *)
Definition execution_latency_obs
  (w : workflowMetrics) (ctx : Context) (component executionType status : string)
  (elapsed : float64) : Observation :=
  {| obs_ctx := ctx;
     obs_tags := execution_tags_of w component executionType status;
     obs_measurement := Float64_M executionLatencyMeasure elapsed |}.

(** The world after [Init("a1", "ns1")] on a freshly constructed recorder
    and an empty backend. *)
Definition enabled_example : World :=
  fst (run (perform_all exampleBounds [CallInit "a1" "ns1"]) (start [] [])).

(** The world with [new] appended to what the backend has received. *)
Definition with_recorded (s : World) (new : list Observation) : World :=
  {| recv := recv s; views := views s; recorded := recorded s ++ new |}.

(** The nil receiver, for a backend in any condition. *)
Definition nil_receiver (reg : list View) (obs : list Observation) : World :=
  {| recv := None; views := reg; recorded := obs |}.

(** What one [WorkflowOperationEvent] records when it reads [app] as the
    app id and [ns] as the namespace: the counter increment, then the
    latency when [elapsed > 0]. *)
Definition operation_event_obs
  (app ns : string) (ctx : Context) (operation component status : string)
  (elapsed : float64) : list Observation :=
  {| obs_ctx := ctx;
     obs_tags :=
       [Upsert appIDKey app; Upsert componentKey component;
        Upsert namespaceKey ns; Upsert operationKey operation;
        Upsert statusKey status];
     obs_measurement := Int64_M operationCountMeasure 1 |} ::
  (if float64_gt elapsed float64_zero then
     [ {| obs_ctx := ctx;
          obs_tags :=
            [Upsert appIDKey app; Upsert componentKey component;
             Upsert namespaceKey ns; Upsert operationKey operation;
             Upsert statusKey status];
          obs_measurement := Float64_M operationLatencyMeasure elapsed |} ]
   else []).

(** The same for one [ExecutionEvent]. *)
Definition execution_event_obs
  (app ns : string) (ctx : Context) (component executionType status : string)
  (elapsed : float64) : list Observation :=
  {| obs_ctx := ctx;
     obs_tags :=
       [Upsert appIDKey app; Upsert componentKey component;
        Upsert namespaceKey ns; Upsert executionTypeKey executionType;
        Upsert statusKey status];
     obs_measurement := Int64_M executionCountMeasure 1 |} ::
  (if float64_gt elapsed float64_zero then
     [ {| obs_ctx := ctx;
          obs_tags :=
            [Upsert appIDKey app; Upsert componentKey component;
             Upsert namespaceKey ns; Upsert executionTypeKey executionType;
             Upsert statusKey status];
          obs_measurement := Float64_M executionLatencyMeasure elapsed |} ]
   else []).

(** The world [Init("a1", "ns1")] on a freshly constructed recorder and an
    empty backend is in after line 88. *)
Definition after_line_88_example : World :=
  fst (run (Init_lines_87_88 "a1") (start [] [])).

(** ** Views and observations of whole call sequences *)

(** The four views [Init] hands to [view.Register] for a recorder built by
    [newWorkflowMetrics]. *)
Definition workflow_views (latencyBounds : list Z) : list View :=
  init_views latencyBounds newWorkflowMetrics_literal.

(** The registry can take [v]: its name is free, or registered with the same
    definition. *)
Definition admits (reg : list View) (v : View) : bool :=
  match registered (Name v) reg with
  | Some x => same_definition x v
  | None => true
  end.

(** What a call on a recorder [w] built by [newWorkflowMetrics] hands to the
    backend. *)
Definition call_observations (w : workflowMetrics) (c : Call) : list Observation :=
  match c with
  | CallWorkflowOperationEvent ctx op comp st el =>
      if enabled w then
        operation_count_obs w ctx op comp st ::
          (if float64_gt el float64_zero
           then [operation_latency_obs w ctx op comp st el] else [])
      else []
  | CallExecutionEvent ctx comp ty st el =>
      if enabled w then
        execution_count_obs w ctx comp ty st ::
          (if float64_gt el float64_zero
           then [execution_latency_obs w ctx comp ty st el] else [])
      else []
  | CallInit _ _ => []
  | CallIsEnabled => []
  end.

(** The same for a sequence of calls, oldest first. *)
Fixpoint calls_observations (w : workflowMetrics) (cs : list Call)
  : list Observation :=
  match cs with
  | [] => []
  | c :: rest => call_observations w c ++ calls_observations (apply_call c w) rest
  end.

(** A counter increment, respectively a latency observation. *)
Definition is_increment (o : Observation) : bool :=
  match obs_measurement o with
  | Int64_M _ _ => true
  | Float64_M _ _ => false
  end.

Definition is_latency (o : Observation) : bool :=
  match obs_measurement o with
  | Int64_M _ _ => false
  | Float64_M _ _ => true
  end.

(** The recorder calls of a sequence that find the recorder enabled, [en]
    telling whether it is enabled at the start: every [Init] enables. *)
Fixpoint effective_events (en : bool) (cs : list Call) : nat :=
  match cs with
  | [] => 0
  | CallInit _ _ :: rest => effective_events true rest
  | CallWorkflowOperationEvent _ _ _ _ _ :: rest
  | CallExecutionEvent _ _ _ _ _ :: rest =>
      (if en then 1 else 0) + effective_events en rest
  | CallIsEnabled :: rest => effective_events en rest
  end.

(** Those among them whose elapsed time is greater than zero. *)
Fixpoint effective_timed_events (en : bool) (cs : list Call) : nat :=
  match cs with
  | [] => 0
  | CallInit _ _ :: rest => effective_timed_events true rest
  | CallWorkflowOperationEvent _ _ _ _ el :: rest
  | CallExecutionEvent _ _ _ _ el :: rest =>
      (if en && float64_gt el float64_zero then 1 else 0)
      + effective_timed_events en rest
  | CallIsEnabled :: rest => effective_timed_events en rest
  end.

(** The measure an observation is for, and the tag keys it carries. *)
Definition obs_measure_name (o : Observation) : string :=
  match obs_measurement o with
  | Int64_M m _ => Int64_Name m
  | Float64_M m _ => Float64_Name m
  end.

Definition mutator_key (m : Mutator) : Key :=
  match m with Upsert k _ => k end.

Definition obs_keys (o : Observation) : list Key :=
  map mutator_key (obs_tags o).

(** [elapsed] is a positive number or plus infinity. *)
Definition float64_positive (x : float64) : bool :=
  match x with
  | S754_infinity false => true
  | S754_finite false _ _ => true
  | _ => false
  end.

(** ** The earlier variant of the component (workflow_metrics.go)

    It declares eight measures, keeps an app id and the enabled flag, and
    has no recorder calls yet.  Its receiver has its own type, so it runs in
    a world of its own, with the same model of the view registry. *)
Module Legacy.

Definition elapsedKey : Key := tag_MustNewKey "elapsed".
Definition reminderTypeKey : Key := tag_MustNewKey "reminder_type".
Definition executionTypeKey : Key := tag_MustNewKey "execution_type".
Definition isRetryableKey : Key := tag_MustNewKey "is_retryable".

(** [type workflowMetrics struct] of the earlier variant. *)
Record workflowMetrics : Type :=
  { workflowOperationsTotal : option Int64Measure;
    workflowOperationsFailedTotal : option Int64Measure;
    workflowOperationsLatency : option Float64Measure;
    workflowRemindersTotal : option Int64Measure;
    workflowExecutionTotal : option Int64Measure;
    workflowExecutionFailedTotal : option Int64Measure;
    workflowExecutionLatency : option Float64Measure;
    workflowSchedulingLatency : option Float64Measure;
    appID : string;
    enabled : bool }.

Definition set_appID (v : string) (w : workflowMetrics) : workflowMetrics :=
  {| workflowOperationsTotal := workflowOperationsTotal w;
     workflowOperationsFailedTotal := workflowOperationsFailedTotal w;
     workflowOperationsLatency := workflowOperationsLatency w;
     workflowRemindersTotal := workflowRemindersTotal w;
     workflowExecutionTotal := workflowExecutionTotal w;
     workflowExecutionFailedTotal := workflowExecutionFailedTotal w;
     workflowExecutionLatency := workflowExecutionLatency w;
     workflowSchedulingLatency := workflowSchedulingLatency w;
     appID := v;
     enabled := enabled w |}.

Definition set_enabled (v : bool) (w : workflowMetrics) : workflowMetrics :=
  {| workflowOperationsTotal := workflowOperationsTotal w;
     workflowOperationsFailedTotal := workflowOperationsFailedTotal w;
     workflowOperationsLatency := workflowOperationsLatency w;
     workflowRemindersTotal := workflowRemindersTotal w;
     workflowExecutionTotal := workflowExecutionTotal w;
     workflowExecutionFailedTotal := workflowExecutionFailedTotal w;
     workflowExecutionLatency := workflowExecutionLatency w;
     workflowSchedulingLatency := workflowSchedulingLatency w;
     appID := appID w;
     enabled := v |}.

(** The receiver ([None] is nil), the view registry and what the backend
    has received. *)
Record World : Type :=
  { recv : option workflowMetrics;
    views : list View;
    recorded : list Observation }.

Definition M (A : Type) : Type := World -> World * Result A.

Definition ret {A : Type} (a : A) : M A := fun s => (s, Ret a).

Definition bind {A B : Type} (c : M A) (k : A -> M B) : M B :=
  fun s =>
    match c s with
    | (s', Ret a) => k a s'
    | (s', Panic msg) => (s', Panic msg)
    end.

Definition panic {A : Type} (msg : string) : M A := fun s => (s, Panic msg).

Definition run {A : Type} (c : M A) (s : World) : World * Result A := c s.

Declare Scope legacy_scope.
Delimit Scope legacy_scope with legacy.
Notation "x <- c ;; k" := (bind c (fun x => k))
  (at level 61, c at next level, right associativity) : legacy_scope.
Notation "c ;; k" := (bind c (fun _ => k))
  (at level 61, right associativity) : legacy_scope.
Local Open Scope legacy_scope.

Definition recv_not_nil : M bool :=
  fun s => (s, Ret (match recv s with Some _ => true | None => false end)).

Definition load : M workflowMetrics :=
  fun s =>
    match recv s with
    | Some w => (s, Ret w)
    | None => (s, Panic nil_dereference)
    end.

Definition store (upd : workflowMetrics -> workflowMetrics) : M unit :=
  fun s =>
    match recv s with
    | Some w =>
        ({| recv := Some (upd w); views := views s; recorded := recorded s |},
         Ret tt)
    | None => (s, Panic nil_dereference)
    end.

Definition deref {A : Type} (h : option A) : M A :=
  match h with
  | Some m => ret m
  | None => panic nil_dereference
  end.

(** Modelled from the spec: [diagUtils.NewMeasureView], as for the later
    variant. *)
Definition diagUtils_NewMeasureView
  (measure : option Measure) (keys : list Key) (aggregation : Aggregation)
  : M View :=
  m <- deref measure ;;
  ret {| Name := Measure_Name m;
         ViewMeasure := m;
         TagKeys := keys;
         ViewAggregation := aggregation |}.

(** [view.Register(views...)], on the same registry model. *)
Definition view_Register (vs : list View) : M error :=
  fun s =>
    let (reg, err) := register_all vs (views s) in
    ({| recv := recv s; views := reg; recorded := recorded s |}, Ret err).

(** The struct literal of [newWorkflowMetrics]. *)
Definition newWorkflowMetrics_literal : workflowMetrics :=
  {| workflowOperationsTotal :=
       stats_Int64
         "runtime/workflow/operations/total"
         "The number of successful workflow operation requests."
         UnitDimensionless;
     workflowOperationsFailedTotal :=
       stats_Int64
         "runtime/workflow/operations/failed_total"
         "The number of failed workflow operations requests."
         UnitDimensionless;
     workflowOperationsLatency :=
       stats_Float64
         "runtime/workflow/operations/latency"
         "The latencies of responses for workflow operation requests."
         UnitMilliseconds;
     workflowRemindersTotal :=
       stats_Int64
         "runtime/workflows/reminders/total"
         "The number of workflows/activity executions."
         UnitDimensionless;
     workflowExecutionTotal :=
       stats_Int64
         "runtime/workflow/execution/total"
         "The number of successful workflow/activity executions."
         UnitDimensionless;
     workflowExecutionFailedTotal :=
       stats_Int64
         "runtime/workflow/execution/failed_total"
         "The number of failed workflow/activity executions."
         UnitDimensionless;
     workflowExecutionLatency :=
       stats_Float64
         "runtime/workflow/execution/latency"
         "The total time taken to run a workflow/activity to completion."
         UnitMilliseconds;
     workflowSchedulingLatency :=
       stats_Float64
         "runtime/workflow/scheduling/latency"
         "The latency between execution request and actual execution."
         UnitMilliseconds;
     appID := EmptyString;
     enabled := false |}.

(** [func newWorkflowMetrics() *workflowMetrics]. *)
Definition newWorkflowMetrics : option workflowMetrics :=
  Some newWorkflowMetrics_literal.

(** [func (w *workflowMetrics) IsEnabled() bool]. *)
Definition IsEnabled : M bool :=
  nn <- recv_not_nil ;;
  if nn then (w <- load ;; ret (enabled w)) else ret false.

(** [func (w *workflowMetrics) Init(appID string) error]. *)
Definition Init (latencyBounds : list Z) (appID : string) : M error :=
  store (set_appID appID) ;;
  store (set_enabled true) ;;
  w <- load ;;
  v1 <- diagUtils_NewMeasureView (as_Int64 (workflowOperationsTotal w))
          [appIDKey; operationKey] view_Count ;;
  v2 <- diagUtils_NewMeasureView (as_Int64 (workflowOperationsFailedTotal w))
          [appIDKey; operationKey] view_Count ;;
  v3 <- diagUtils_NewMeasureView (as_Float64 (workflowOperationsLatency w))
          [appIDKey; elapsedKey] (defaultLatencyDistribution latencyBounds) ;;
  v4 <- diagUtils_NewMeasureView (as_Int64 (workflowRemindersTotal w))
          [appIDKey; reminderTypeKey] view_Count ;;
  v5 <- diagUtils_NewMeasureView (as_Int64 (workflowExecutionTotal w))
          [appIDKey; executionTypeKey] view_Count ;;
  v6 <- diagUtils_NewMeasureView (as_Int64 (workflowExecutionFailedTotal w))
          [appIDKey; executionTypeKey; isRetryableKey] view_Count ;;
  v7 <- diagUtils_NewMeasureView (as_Float64 (workflowExecutionLatency w))
          [appIDKey; executionTypeKey; statusKey]
          (defaultLatencyDistribution latencyBounds) ;;
  v8 <- diagUtils_NewMeasureView (as_Float64 (workflowSchedulingLatency w))
          [appIDKey; executionTypeKey]
          (defaultLatencyDistribution latencyBounds) ;;
  view_Register [v1; v2; v3; v4; v5; v6; v7; v8].

(** The world right after [newWorkflowMetrics()], and the nil receiver. *)
Definition start (reg : list View) (obs : list Observation) : World :=
  {| recv := newWorkflowMetrics; views := reg; recorded := obs |}.

Definition nil_receiver (reg : list View) (obs : list Observation) : World :=
  {| recv := None; views := reg; recorded := obs |}.

(** All eight measure handles are non-nil. *)
Definition handles_set (w : workflowMetrics) : bool :=
  match workflowOperationsTotal w, workflowOperationsFailedTotal w,
        workflowOperationsLatency w, workflowRemindersTotal w,
        workflowExecutionTotal w, workflowExecutionFailedTotal w,
        workflowExecutionLatency w, workflowSchedulingLatency w with
  | Some _, Some _, Some _, Some _, Some _, Some _, Some _, Some _ => true
  | _, _, _, _, _, _, _, _ => false
  end.

(** The views [Init] hands to [view.Register], when all handles are set. *)
Definition init_views (latencyBounds : list Z) (w : workflowMetrics) : list View :=
  match workflowOperationsTotal w, workflowOperationsFailedTotal w,
        workflowOperationsLatency w, workflowRemindersTotal w,
        workflowExecutionTotal w, workflowExecutionFailedTotal w,
        workflowExecutionLatency w, workflowSchedulingLatency w with
  | Some m1, Some m2, Some m3, Some m4, Some m5, Some m6, Some m7, Some m8 =>
      [ {| Name := Int64_Name m1; ViewMeasure := OfInt64 m1;
           TagKeys := [appIDKey; operationKey];
           ViewAggregation := view_Count |};
        {| Name := Int64_Name m2; ViewMeasure := OfInt64 m2;
           TagKeys := [appIDKey; operationKey];
           ViewAggregation := view_Count |};
        {| Name := Float64_Name m3; ViewMeasure := OfFloat64 m3;
           TagKeys := [appIDKey; elapsedKey];
           ViewAggregation := defaultLatencyDistribution latencyBounds |};
        {| Name := Int64_Name m4; ViewMeasure := OfInt64 m4;
           TagKeys := [appIDKey; reminderTypeKey];
           ViewAggregation := view_Count |};
        {| Name := Int64_Name m5; ViewMeasure := OfInt64 m5;
           TagKeys := [appIDKey; executionTypeKey];
           ViewAggregation := view_Count |};
        {| Name := Int64_Name m6; ViewMeasure := OfInt64 m6;
           TagKeys := [appIDKey; executionTypeKey; isRetryableKey];
           ViewAggregation := view_Count |};
        {| Name := Float64_Name m7; ViewMeasure := OfFloat64 m7;
           TagKeys := [appIDKey; executionTypeKey; statusKey];
           ViewAggregation := defaultLatencyDistribution latencyBounds |};
        {| Name := Float64_Name m8; ViewMeasure := OfFloat64 m8;
           TagKeys := [appIDKey; executionTypeKey];
           ViewAggregation := defaultLatencyDistribution latencyBounds |} ]
  | _, _, _, _, _, _, _, _ => []
  end.

(** The eight views of a recorder built by [newWorkflowMetrics]. *)
Definition workflow_views (latencyBounds : list Z) : list View :=
  init_views latencyBounds newWorkflowMetrics_literal.

(** The recorder after the two assignments of [Init]. *)
Definition initialised (a : string) (w : workflowMetrics) : workflowMetrics :=
  set_enabled true (set_appID a w).

End Legacy.

(** * Properties *)

(** ** Running the operations *)

Lemma run_bind_ret {A B : Type} (c : M A) (k : A -> M B) (s s' : World) (a : A) :
  run c s = (s', Ret a) -> run (bind c k) s = run (k a) s'.
Proof. unfold run, bind. intros ->. reflexivity. Qed.

Lemma run_load (s : World) (w : workflowMetrics) :
  recv s = Some w -> run load s = (s, Ret w).
Proof. unfold run, load. intros ->. reflexivity. Qed.

Lemma run_store (s : World) (w : workflowMetrics)
  (upd : workflowMetrics -> workflowMetrics) :
  recv s = Some w ->
  run (store upd) s =
    ({| recv := Some (upd w); views := views s; recorded := recorded s |},
     Ret tt).
Proof. unfold run, store. intros ->. reflexivity. Qed.

Lemma run_deref {A : Type} (s : World) (h : option A) (m : A) :
  h = Some m -> run (deref h) s = (s, Ret m).
Proof. intros ->. reflexivity. Qed.

Lemma run_NewMeasureView (s : World) (h : option Measure) (m : Measure)
  (keys : list Key) (agg : Aggregation) :
  h = Some m ->
  run (diagUtils_NewMeasureView h keys agg) s =
    (s, Ret {| Name := Measure_Name m; ViewMeasure := m;
               TagKeys := keys; ViewAggregation := agg |}).
Proof. intros ->. reflexivity. Qed.

(** One step of a sequence whose head is known to return. *)
Ltac go_step H := rewrite (run_bind_ret _ _ _ _ _ H).

(** The same, the head's equation found by a tactic. *)
Tactic Notation "go_by" tactic3(tac) := erewrite run_bind_ret by tac.

Lemma World_eta (s : World) :
  {| recv := recv s; views := views s; recorded := recorded s |} = s.
Proof. destruct s; reflexivity. Qed.

(** [IsEnabled] never panics, changes nothing and returns [is_enabled]. *)
Lemma IsEnabled_run (s : World) : run IsEnabled s = (s, Ret (is_enabled s)).
Proof.
  unfold is_enabled.
  destruct s as [[w|] reg obs]; reflexivity.
Qed.

Lemma handles_set_inv (w : workflowMetrics) :
  handles_set w = true ->
  exists oc ol ec el,
    workflowOperationCount w = Some oc /\
    workflowOperationLatency w = Some ol /\
    workflowExecutionCount w = Some ec /\
    workflowExecutionLatency w = Some el.
Proof.
  unfold handles_set.
  destruct (workflowOperationCount w) as [oc|]; [|discriminate].
  destruct (workflowOperationLatency w) as [ol|]; [|discriminate].
  destruct (workflowExecutionCount w) as [ec|]; [|discriminate].
  destruct (workflowExecutionLatency w) as [el|]; [|discriminate].
  intros _. exists oc, ol, ec, el. repeat split.
Qed.

Section Running.

Variable latencyBounds : list Z.

(** [Init] on a recorder with its handles set: the three fields are
    written, then the four views go to [view.Register], whose result is
    returned as it is. *)
Lemma Init_run (s : World) (w : workflowMetrics) (a n : string) :
  recv s = Some w ->
  handles_set w = true ->
  run (Init latencyBounds a n) s =
    ({| recv := Some (initialised a n w);
        views := fst (register_all (init_views latencyBounds w) (views s));
        recorded := recorded s |},
     Ret (snd (register_all (init_views latencyBounds w) (views s)))).
Proof.
  intros Hw Hh.
  destruct (handles_set_inv w Hh) as (oc & ol & ec & el & H1 & H2 & H3 & H4).
  unfold Init, init_views, initialised.
  go_step (run_store s w (set_appID a) Hw).
  go_by (apply run_store; reflexivity).
  go_by (apply run_store; reflexivity).
  go_by (apply run_load; reflexivity).
  cbn [workflowOperationCount workflowOperationLatency workflowExecutionCount
       workflowExecutionLatency set_namespace set_enabled set_appID].
  rewrite H1, H2, H3, H4.
  do 4 go_by (apply run_NewMeasureView; reflexivity).
  unfold run, view_Register. cbn [views recv recorded Measure_Name].
  match goal with
  | |- context [register_all ?vs ?r] => destruct (register_all vs r)
  end.
  reflexivity.
Qed.

(** On the nil receiver [Init] panics at its first assignment. *)
Lemma Init_nil (s : World) (a n : string) :
  recv s = None ->
  run (Init latencyBounds a n) s = (s, Panic nil_dereference).
Proof.
  intros Hw. destruct s as [r reg obs]; cbn in Hw; subst r. reflexivity.
Qed.

End Running.

(** The recorder calls on an enabled recorder whose handles are set. *)
Lemma WorkflowOperationEvent_run
  (s : World) (w : workflowMetrics) (cnt : Int64Measure) (lat : Float64Measure)
  (ctx : Context) (operation component status : string) (elapsed : float64) :
  recv s = Some w ->
  enabled w = true ->
  workflowOperationCount w = Some cnt ->
  workflowOperationLatency w = Some lat ->
  run (WorkflowOperationEvent ctx operation component status elapsed) s =
    ({| recv := recv s;
        views := views s;
        recorded :=
          (recorded s ++
             [ {| obs_ctx := ctx;
                  obs_tags :=
                    [Upsert appIDKey (appID w); Upsert componentKey component;
                     Upsert namespaceKey (namespace w);
                     Upsert operationKey operation; Upsert statusKey status];
                  obs_measurement := Int64_M cnt 1 |} ]) ++
          (if float64_gt elapsed float64_zero then
             [ {| obs_ctx := ctx;
                  obs_tags :=
                    [Upsert appIDKey (appID w); Upsert componentKey component;
                     Upsert namespaceKey (namespace w);
                     Upsert operationKey operation; Upsert statusKey status];
                  obs_measurement := Float64_M lat elapsed |} ]
           else []) |},
     Ret tt).
Proof.
  intros Hw He Hc Hl.
  unfold WorkflowOperationEvent.
  go_step (IsEnabled_run s).
  unfold is_enabled. rewrite Hw, He. cbn [negb].
  go_step (run_load s w Hw).
  go_step (run_deref s _ _ Hc).
  go_by (unfold run, stats_RecordWithTags; reflexivity).
  destruct (float64_gt elapsed float64_zero).
  - go_by (apply run_load; exact Hw).
    go_by (apply run_deref; exact Hl).
    unfold run, stats_RecordWithTags. cbn [recv views recorded].
    rewrite ?Hw. reflexivity.
  - unfold run, ret. rewrite app_nil_r, ?Hw. reflexivity.
Qed.

Lemma ExecutionEvent_run
  (s : World) (w : workflowMetrics) (cnt : Int64Measure) (lat : Float64Measure)
  (ctx : Context) (component executionType status : string) (elapsed : float64) :
  recv s = Some w ->
  enabled w = true ->
  workflowExecutionCount w = Some cnt ->
  workflowExecutionLatency w = Some lat ->
  run (ExecutionEvent ctx component executionType status elapsed) s =
    ({| recv := recv s;
        views := views s;
        recorded :=
          (recorded s ++
             [ {| obs_ctx := ctx;
                  obs_tags :=
                    [Upsert appIDKey (appID w); Upsert componentKey component;
                     Upsert namespaceKey (namespace w);
                     Upsert executionTypeKey executionType;
                     Upsert statusKey status];
                  obs_measurement := Int64_M cnt 1 |} ]) ++
          (if float64_gt elapsed float64_zero then
             [ {| obs_ctx := ctx;
                  obs_tags :=
                    [Upsert appIDKey (appID w); Upsert componentKey component;
                     Upsert namespaceKey (namespace w);
                     Upsert executionTypeKey executionType;
                     Upsert statusKey status];
                  obs_measurement := Float64_M lat elapsed |} ]
           else []) |},
     Ret tt).
Proof.
  intros Hw He Hc Hl.
  unfold ExecutionEvent.
  go_step (IsEnabled_run s).
  unfold is_enabled. rewrite Hw, He. cbn [negb].
  go_step (run_load s w Hw).
  go_step (run_deref s _ _ Hc).
  go_by (unfold run, stats_RecordWithTags; reflexivity).
  destruct (float64_gt elapsed float64_zero).
  - go_by (apply run_load; exact Hw).
    go_by (apply run_deref; exact Hl).
    unfold run, stats_RecordWithTags. cbn [recv views recorded].
    rewrite ?Hw. reflexivity.
  - unfold run, ret. rewrite app_nil_r, ?Hw. reflexivity.
Qed.

(** A disabled or nil recorder: both calls return at their guard. *)
Lemma WorkflowOperationEvent_disabled
  (s : World) (ctx : Context) (operation component status : string)
  (elapsed : float64) :
  is_enabled s = false ->
  run (WorkflowOperationEvent ctx operation component status elapsed) s =
    (s, Ret tt).
Proof.
  intros Hd. unfold WorkflowOperationEvent, run, bind.
  pose proof (IsEnabled_run s) as HI. unfold run in HI.
  rewrite HI, Hd. reflexivity.
Qed.

Lemma ExecutionEvent_disabled
  (s : World) (ctx : Context) (component executionType status : string)
  (elapsed : float64) :
  is_enabled s = false ->
  run (ExecutionEvent ctx component executionType status elapsed) s =
    (s, Ret tt).
Proof.
  intros Hd. unfold ExecutionEvent, run, bind.
  pose proof (IsEnabled_run s) as HI. unfold run in HI.
  rewrite HI, Hd. reflexivity.
Qed.

(** ** The view registry *)

Lemma registered_app_some (name : string) (reg : list View) (x v : View) :
  registered name reg = Some x -> registered name (reg ++ [v]) = Some x.
Proof.
  unfold registered. induction reg as [|y reg IH]; cbn.
  - discriminate.
  - destruct (Name y =? name)%string; auto.
Qed.

Lemma registered_app_none (reg : list View) (v : View) :
  registered (Name v) reg = None -> registered (Name v) (reg ++ [v]) = Some v.
Proof.
  unfold registered. induction reg as [|y reg IH]; cbn.
  - rewrite String.eqb_refl. reflexivity.
  - destruct (Name y =? Name v)%string; [discriminate | auto].
Qed.

Lemma same_definition_refl (v : View) : same_definition v v = true.
Proof.
  unfold same_definition.
  destruct (list_eq_dec Key_eq_dec (TagKeys v) (TagKeys v)); [|contradiction].
  destruct (Aggregation_eq_dec (ViewAggregation v) (ViewAggregation v));
    [reflexivity | contradiction].
Qed.

(** Registration never changes what a registered name stands for. *)
Lemma register_all_preserves (vs : list View) :
  forall (reg reg' : list View) (e : error) (name : string) (x : View),
    register_all vs reg = (reg', e) ->
    registered name reg = Some x ->
    registered name reg' = Some x.
Proof.
  induction vs as [|v rest IH]; intros reg reg' e name x Hr Hx; cbn in Hr.
  - inversion Hr; subst. exact Hx.
  - destruct (registered (Name v) reg) as [y|] eqn:Hy.
    + destruct (same_definition y v).
      * eapply IH; eauto.
      * inversion Hr; subst. exact Hx.
    + eapply IH; [exact Hr|]. apply registered_app_some. exact Hx.
Qed.

(** After a successful registration every view of the call is known. *)
Lemma register_all_ok_known (vs : list View) :
  forall (reg reg' : list View),
    register_all vs reg = (reg', None) ->
    forall v, In v vs -> known reg' v.
Proof.
  induction vs as [|v0 rest IH]; intros reg reg' Hr v Hin; [destruct Hin|].
  cbn in Hr.
  destruct (registered (Name v0) reg) as [y|] eqn:Hy.
  - destruct (same_definition y v0) eqn:Hsame; [|discriminate].
    destruct Hin as [<-|Hin].
    + exists y. split; [|exact Hsame].
      eapply register_all_preserves; eauto.
    + eapply IH; eauto.
  - destruct Hin as [<-|Hin].
    + exists v0. split; [|apply same_definition_refl].
      eapply register_all_preserves; [exact Hr|].
      apply registered_app_none. exact Hy.
    + eapply IH; eauto.
Qed.

(** Registering views that are all known succeeds and leaves the registry
    as it is. *)
Lemma register_all_known (vs : list View) (reg : list View) :
  (forall v, In v vs -> known reg v) ->
  register_all vs reg = (reg, None).
Proof.
  induction vs as [|v rest IH]; intros Hall; cbn; [reflexivity|].
  destruct (Hall v (or_introl eq_refl)) as (x & Hx & Hsame).
  rewrite Hx, Hsame.
  apply IH. intros v' Hin. apply Hall. right. exact Hin.
Qed.

Lemma register_all_again (vs : list View) (reg reg' : list View) :
  register_all vs reg = (reg', None) ->
  register_all vs reg' = (reg', None).
Proof.
  intros Hr. apply register_all_known.
  apply (register_all_ok_known vs reg). exact Hr.
Qed.

(** ** Comparison of [float64] with zero *)

Lemma float64_le_zero_not_gt (x : float64) :
  float64_le x float64_zero = true -> float64_gt x float64_zero = false.
Proof.
  unfold float64_le, float64_gt, float64_zero, SFleb, SFltb.
  destruct x as [s|s| |s m e]; cbn; try destruct s; cbn;
    intros H; try reflexivity; try discriminate.
Qed.

Lemma float64_zero_not_gt (s : bool) :
  float64_gt (S754_zero s) float64_zero = false.
Proof. reflexivity. Qed.

Lemma float64_nan_not_gt : float64_gt S754_nan float64_zero = false.
Proof. reflexivity. Qed.

(** ** What the recorder calls leave alone, in any world *)

Ltac frame_cases w elapsed :=
  destruct w as [oc ol ec el a e n];
  destruct e, oc, ol, ec, el, (float64_gt elapsed float64_zero);
  cbn; repeat split;
  solve [ eexists; rewrite <- ?app_assoc; reflexivity
        | exists []; rewrite app_nil_r; reflexivity ].

Lemma WorkflowOperationEvent_frame
  (s : World) (ctx : Context) (operation component status : string)
  (elapsed : float64) :
  recv (fst (run (WorkflowOperationEvent ctx operation component status elapsed) s))
    = recv s /\
  views (fst (run (WorkflowOperationEvent ctx operation component status elapsed) s))
    = views s /\
  exists new,
    recorded (fst (run (WorkflowOperationEvent ctx operation component status elapsed) s))
      = recorded s ++ new.
Proof.
  destruct s as [[w|] reg obs].
  - unfold WorkflowOperationEvent, run, bind, IsEnabled, recv_not_nil, load,
      deref, stats_RecordWithTags, ret, panic.
    frame_cases w elapsed.
  - cbn. repeat split. exists []. rewrite app_nil_r. reflexivity.
Qed.

Lemma ExecutionEvent_frame
  (s : World) (ctx : Context) (component executionType status : string)
  (elapsed : float64) :
  recv (fst (run (ExecutionEvent ctx component executionType status elapsed) s))
    = recv s /\
  views (fst (run (ExecutionEvent ctx component executionType status elapsed) s))
    = views s /\
  exists new,
    recorded (fst (run (ExecutionEvent ctx component executionType status elapsed) s))
      = recorded s ++ new.
Proof.
  destruct s as [[w|] reg obs].
  - unfold ExecutionEvent, run, bind, IsEnabled, recv_not_nil, load,
      deref, stats_RecordWithTags, ret, panic.
    frame_cases w elapsed.
  - cbn. repeat split. exists []. rewrite app_nil_r. reflexivity.
Qed.

(** ** Worlds reached by call sequences *)

Section Sequences.

Variable latencyBounds : list Z.

(** A call on a recorder with its handles set returns, and changes the
    recorder as [apply_call] says. *)
Lemma perform_run (c : Call) (s : World) (w : workflowMetrics) :
  recv s = Some w ->
  handles_set w = true ->
  exists s',
    run (perform latencyBounds c) s = (s', Ret tt) /\
    recv s' = Some (apply_call c w).
Proof.
  intros Hw Hh. destruct c as [a n|ctx op comp st el|ctx comp ty st el|].
  - unfold perform.
    go_step (Init_run latencyBounds s w a n Hw Hh).
    eexists. split; reflexivity.
  - pose proof (WorkflowOperationEvent_frame s ctx op comp st el) as [Hr _].
    cbn [perform apply_call]. rewrite <- Hw, <- Hr.
    destruct (enabled w) eqn:He.
    + destruct (handles_set_inv w Hh) as (oc & ol & _ & _ & H1 & H2 & _).
      rewrite (WorkflowOperationEvent_run s w oc ol ctx op comp st el Hw He H1 H2).
      eexists. split; reflexivity.
    + rewrite WorkflowOperationEvent_disabled
        by (unfold is_enabled; rewrite Hw; exact He).
      eexists. split; reflexivity.
  - pose proof (ExecutionEvent_frame s ctx comp ty st el) as [Hr _].
    cbn [perform apply_call]. rewrite <- Hw, <- Hr.
    destruct (enabled w) eqn:He.
    + destruct (handles_set_inv w Hh) as (_ & _ & ec & el' & _ & _ & H3 & H4).
      rewrite (ExecutionEvent_run s w ec el' ctx comp ty st el Hw He H3 H4).
      eexists. split; reflexivity.
    + rewrite ExecutionEvent_disabled
        by (unfold is_enabled; rewrite Hw; exact He).
      eexists. split; reflexivity.
  - unfold perform. go_step (IsEnabled_run s).
    exists s. split; [reflexivity | exact Hw].
Qed.

Lemma handles_set_apply_call (c : Call) (w : workflowMetrics) :
  handles_set (apply_call c w) = handles_set w.
Proof. destruct c; reflexivity. Qed.

(** A sequence of calls on a recorder with its handles set returns, and
    changes the recorder as [apply_calls] says. *)
Lemma perform_all_run (cs : list Call) :
  forall (s : World) (w : workflowMetrics),
    recv s = Some w ->
    handles_set w = true ->
    exists s',
      run (perform_all latencyBounds cs) s = (s', Ret tt) /\
      recv s' = Some (apply_calls cs w) /\
      handles_set (apply_calls cs w) = true.
Proof.
  induction cs as [|c rest IH]; intros s w Hw Hh.
  - exists s. repeat split; assumption.
  - destruct (perform_run c s w Hw Hh) as (s1 & Hrun & Hw1).
    cbn [perform_all]. go_step Hrun.
    apply (IH s1 (apply_call c w) Hw1).
    rewrite handles_set_apply_call. exact Hh.
Qed.

End Sequences.

(** [initialised] overwrites the three fields whatever they held. *)
Lemma initialised_initialised (a n a' n' : string) (w : workflowMetrics) :
  initialised a' n' (initialised a n w) = initialised a' n' w.
Proof. reflexivity. Qed.

(** The recorder after a call sequence is the one it started from, or the
    one the last [Init] of the sequence wrote. *)
Lemma apply_calls_last_Init (cs : list Call) :
  forall w,
    apply_calls cs w = w \/
    exists a n, In (CallInit a n) cs /\ apply_calls cs w = initialised a n w.
Proof.
  induction cs as [|c rest IH]; intros w; [left; reflexivity|].
  unfold apply_calls in *. cbn [fold_left].
  destruct c as [a n| | |]; cbn [apply_call];
    try (destruct (IH w) as [H|(a' & n' & Hin & H)];
         [left; exact H | right; exists a', n'; split; [right; exact Hin | exact H]]).
  destruct (IH (initialised a n w)) as [H|(a' & n' & Hin & H)].
  - right. exists a, n. split; [left; reflexivity | exact H].
  - right. exists a', n'. split; [right; exact Hin|].
    rewrite H. apply initialised_initialised.
Qed.

Lemma apply_calls_enabled (cs : list Call) :
  forall w, enabled w = true -> enabled (apply_calls cs w) = true.
Proof.
  induction cs as [|c rest IH]; intros w He; [exact He|].
  unfold apply_calls in *. cbn [fold_left]. apply IH.
  destruct c; cbn; auto.
Qed.

Lemma handles_apply_calls (cs : list Call) :
  forall w, handles (apply_calls cs w) = handles w.
Proof.
  induction cs as [|c rest IH]; intros w; [reflexivity|].
  unfold apply_calls in *. cbn [fold_left]. rewrite IH.
  destruct c; reflexivity.
Qed.

(** The recorder of a reachable world: non-nil, with the measures
    [newWorkflowMetrics] created. *)
Lemma Reachable_recorder (latencyBounds : list Z) (s : World) :
  Reachable latencyBounds s ->
  exists w,
    recv s = Some w /\
    workflowOperationCount w = Some operationCountMeasure /\
    workflowOperationLatency w = Some operationLatencyMeasure /\
    workflowExecutionCount w = Some executionCountMeasure /\
    workflowExecutionLatency w = Some executionLatencyMeasure.
Proof.
  intros (reg & obs & cs & Hrun).
  destruct (perform_all_run latencyBounds cs (start reg obs)
              newWorkflowMetrics_literal eq_refl eq_refl)
    as (s' & Hrun' & Hw & _).
  rewrite Hrun in Hrun'. inversion Hrun'; subst s'.
  pose proof (handles_apply_calls cs newWorkflowMetrics_literal) as Hh.
  unfold handles in Hh. inversion Hh as [[H1 H2 H3 H4]].
  eexists. split; [exact Hw|]. rewrite H1, H2, H3, H4. repeat split.
Qed.

(** ** [Init] in any world *)

Section InitAnywhere.

Variable latencyBounds : list Z.

(** On a non-nil receiver the three assignments of [Init] take effect,
    whatever happens afterwards. *)
Lemma Init_recv (s : World) (w : workflowMetrics) (a n : string) :
  recv s = Some w ->
  recv (fst (run (Init latencyBounds a n) s)) = Some (initialised a n w).
Proof.
  intros Hw. destruct (handles_set w) eqn:Hh.
  - rewrite (Init_run latencyBounds s w a n Hw Hh). reflexivity.
  - destruct s as [r reg obs]; cbn in Hw; subst r.
    destruct w as [[oc|] [ol|] [ec|] [el|] a0 e0 n0];
      try discriminate Hh; reflexivity.
Qed.

(** [Init] returns only on a non-nil receiver whose handles are set. *)
Lemma Init_returns_inv (s s' : World) (a n : string) (e : error) :
  run (Init latencyBounds a n) s = (s', Ret e) ->
  exists w, recv s = Some w /\ handles_set w = true.
Proof.
  intros Hrun. destruct (recv s) as [w|] eqn:Hw.
  - exists w. split; [reflexivity|].
    destruct (handles_set w) eqn:Hh; [reflexivity|].
    destruct s as [r reg obs]; cbn in Hw; subst r.
    destruct w as [[oc|] [ol|] [ec|] [el|] a0 e0 n0];
      try discriminate Hh; discriminate Hrun.
  - rewrite (Init_nil latencyBounds s a n Hw) in Hrun. discriminate Hrun.
Qed.

End InitAnywhere.

(** * The claims *)

(** C1, as stated, fails.  With the earlier variant's
    "runtime/workflow/execution/latency" view in the registry,
    [Init("a1", "ns1")] on a freshly constructed recorder returns a
    registration error, and yet [IsEnabled] returns true afterwards and a
    following [WorkflowOperationEvent] records its two observations. *)
Lemma Init_failure_leaves_enabled :
  snd (run (Init exampleBounds "a1" "ns1") conflicting_start)
    = Ret (Some (RegistrationError "runtime/workflow/execution/latency")) /\
  snd (run IsEnabled
         (fst (run (Init exampleBounds "a1" "ns1") conflicting_start)))
    = Ret true /\
  recorded
    (fst (run (WorkflowOperationEvent context_Background CreateWorkflow
                 ComponentName StatusSuccess elapsed_12_5)
            (fst (run (Init exampleBounds "a1" "ns1") conflicting_start))))
    = [ operation_count_obs (initialised "a1" "ns1" newWorkflowMetrics_literal)
          context_Background CreateWorkflow ComponentName StatusSuccess;
        operation_latency_obs (initialised "a1" "ns1" newWorkflowMetrics_literal)
          context_Background CreateWorkflow ComponentName StatusSuccess
          elapsed_12_5 ].
Proof. repeat split; vm_compute; reflexivity. Qed.

(** C1, amended.  On a recorder whose handles are set, [Init(appID,
    namespace)] stores appID, sets enabled to true and stores namespace
    before it registers the views and whatever registration answers; it
    returns the answer of [view.Register] as it is.  So also when
    registration fails and the error is returned, [IsEnabled] returns true
    in the world [Init] leaves and the Recorder calls record. *)
Theorem Init_enables_whatever_registration_answers
  (latencyBounds : list Z) (s : World) (w : workflowMetrics) (a n : string) :
  recv s = Some w ->
  handles_set w = true ->
  exists s',
    run (Init latencyBounds a n) s =
      (s', Ret (snd (register_all (init_views latencyBounds w) (views s)))) /\
    recv s' = Some (initialised a n w) /\
    run IsEnabled s' = (s', Ret true) /\
    (forall ctx operation component status elapsed,
        recorded (fst (run (WorkflowOperationEvent ctx operation component
                              status elapsed) s'))
          <> recorded s') /\
    (forall ctx component executionType status elapsed,
        recorded (fst (run (ExecutionEvent ctx component executionType
                              status elapsed) s'))
          <> recorded s').
Proof.
  intros Hw Hh.
  eexists. split; [apply (Init_run latencyBounds s w a n Hw Hh)|].
  set (s' := {| recv := Some (initialised a n w) |}).
  assert (Hw' : recv s' = Some (initialised a n w)) by reflexivity.
  destruct (handles_set_inv w Hh) as (oc & ol & ec & el & H1 & H2 & H3 & H4).
  assert (Hneq : forall (l new : list Observation) (x : Observation),
             (l ++ [x]) ++ new <> l).
  { intros l new x Heq. apply (f_equal (@length _)) in Heq.
    rewrite !length_app in Heq. cbn in Heq. lia. }
  split; [exact Hw'|]. split; [|split].
  - rewrite IsEnabled_run. reflexivity.
  - intros ctx operation component status elapsed.
    rewrite (WorkflowOperationEvent_run s' (initialised a n w) oc ol ctx
               operation component status elapsed Hw' eq_refl H1 H2).
    apply Hneq.
  - intros ctx component executionType status elapsed.
    rewrite (ExecutionEvent_run s' (initialised a n w) ec el ctx
               component executionType status elapsed Hw' eq_refl H3 H4).
    apply Hneq.
Qed.

(** [Init("a1", "ns1")] against the backend that holds the earlier variant's view. *)
Lemma Init_enables_whatever_registration_answers_witness :
  recv conflicting_start = Some newWorkflowMetrics_literal /\
  handles_set newWorkflowMetrics_literal = true /\
  exists s',
    run (Init exampleBounds "a1" "ns1") conflicting_start =
      (s', Ret (snd (register_all
                       (init_views exampleBounds newWorkflowMetrics_literal)
                       (views conflicting_start)))) /\
    recv s' = Some (initialised "a1" "ns1" newWorkflowMetrics_literal) /\
    run IsEnabled s' = (s', Ret true) /\
    (forall ctx operation component status elapsed,
        recorded (fst (run (WorkflowOperationEvent ctx operation component
                              status elapsed) s'))
          <> recorded s') /\
    (forall ctx component executionType status elapsed,
        recorded (fst (run (ExecutionEvent ctx component executionType
                              status elapsed) s'))
          <> recorded s').
Proof.
  split; [reflexivity|]. split; [reflexivity|].
  apply (Init_enables_whatever_registration_answers exampleBounds
           conflicting_start newWorkflowMetrics_literal "a1" "ns1");
    reflexivity.
Defined.

(** C2.  While [IsEnabled()] returns false, which includes the nil
    receiver, [WorkflowOperationEvent] and [ExecutionEvent] return without
    a panic and leave the whole world as it was: nothing reaches the
    backend and no state changes. *)
Theorem Recorder_noop_while_disabled
  (s : World) (ctx : Context) (operation component status : string)
  (elapsed : float64)
  (ctx' : Context) (component' executionType status' : string)
  (elapsed' : float64) :
  snd (run IsEnabled s) = Ret false ->
  run (WorkflowOperationEvent ctx operation component status elapsed) s
    = (s, Ret tt) /\
  run (ExecutionEvent ctx' component' executionType status' elapsed') s
    = (s, Ret tt).
Proof.
  rewrite IsEnabled_run. cbn [snd]. intros Hd.
  assert (Hd' : is_enabled s = false) by (inversion Hd; reflexivity).
  split.
  - apply WorkflowOperationEvent_disabled. exact Hd'.
  - apply ExecutionEvent_disabled. exact Hd'.
Qed.

(** Both calls on the nil receiver. *)
Lemma Recorder_noop_while_disabled_witness :
  snd (run IsEnabled (nil_receiver [] [])) = Ret false /\
  run (WorkflowOperationEvent context_Background CreateWorkflow ComponentName
         StatusSuccess elapsed_12_5) (nil_receiver [] [])
    = (nil_receiver [] [], Ret tt) /\
  run (ExecutionEvent context_Background ComponentName Activity StatusFailed
         float64_zero) (nil_receiver [] [])
    = (nil_receiver [] [], Ret tt).
Proof.
  split; [reflexivity|].
  apply (Recorder_noop_while_disabled (nil_receiver [] [])).
  reflexivity.
Defined.

(** C3.  In an enabled world the host can reach, a call of
    [WorkflowOperationEvent(ctx, operation, component, status, elapsed)]
    returns and hands the backend exactly one increment of 1 of the
    operation counter tagged [{appID, component, namespace, operation,
    status}], followed by exactly one observation of [elapsed] in the
    operation-latency distribution with the same tags when [elapsed > 0],
    and by nothing otherwise; in particular for [elapsed <= 0] only the
    counter increment is recorded. *)
Theorem WorkflowOperationEvent_enabled
  (latencyBounds : list Z) (s : World)
  (ctx : Context) (operation component status : string) (elapsed : float64) :
  Reachable latencyBounds s ->
  snd (run IsEnabled s) = Ret true ->
  exists w,
    recv s = Some w /\
    run (WorkflowOperationEvent ctx operation component status elapsed) s =
      (with_recorded s
         (operation_count_obs w ctx operation component status ::
            (if float64_gt elapsed float64_zero
             then [operation_latency_obs w ctx operation component status elapsed]
             else [])),
       Ret tt) /\
    (float64_le elapsed float64_zero = true ->
     run (WorkflowOperationEvent ctx operation component status elapsed) s =
       (with_recorded s
          [operation_count_obs w ctx operation component status],
        Ret tt)).
Proof.
  intros Hreach. rewrite IsEnabled_run. cbn [snd]. intros Hen.
  destruct (Reachable_recorder latencyBounds s Hreach)
    as (w & Hw & H1 & H2 & _ & _).
  assert (He : enabled w = true).
  { unfold is_enabled in Hen. rewrite Hw in Hen. inversion Hen. reflexivity. }
  assert (Hrun :
    run (WorkflowOperationEvent ctx operation component status elapsed) s =
      (with_recorded s
         (operation_count_obs w ctx operation component status ::
            (if float64_gt elapsed float64_zero
             then [operation_latency_obs w ctx operation component status elapsed]
             else [])),
       Ret tt)).
  { rewrite (WorkflowOperationEvent_run s w operationCountMeasure
               operationLatencyMeasure ctx operation component status elapsed
               Hw He H1 H2).
    unfold with_recorded. rewrite <- app_assoc. reflexivity. }
  exists w. split; [exact Hw|]. split; [exact Hrun|].
  intros Hle. rewrite Hrun, (float64_le_zero_not_gt elapsed Hle). reflexivity.
Qed.

(** The running example: [create_workflow] by [dapr], [success], 12.5 ms, after
    [Init("a1", "ns1")]. *)
Lemma WorkflowOperationEvent_enabled_witness :
  Reachable exampleBounds enabled_example /\
  snd (run IsEnabled enabled_example) = Ret true /\
  exists w,
    recv enabled_example = Some w /\
    run (WorkflowOperationEvent context_Background CreateWorkflow ComponentName
           StatusSuccess elapsed_12_5) enabled_example =
      (with_recorded enabled_example
         (operation_count_obs w context_Background CreateWorkflow ComponentName
            StatusSuccess ::
            (if float64_gt elapsed_12_5 float64_zero
             then [operation_latency_obs w context_Background CreateWorkflow
                     ComponentName StatusSuccess elapsed_12_5]
             else [])),
       Ret tt) /\
    (float64_le elapsed_12_5 float64_zero = true ->
     run (WorkflowOperationEvent context_Background CreateWorkflow ComponentName
            StatusSuccess elapsed_12_5) enabled_example =
       (with_recorded enabled_example
          [operation_count_obs w context_Background CreateWorkflow
             ComponentName StatusSuccess],
        Ret tt)).
Proof.
  assert (Hr : Reachable exampleBounds enabled_example).
  { exists [], [], [CallInit "a1" "ns1"]. reflexivity. }
  split; [exact Hr|]. split; [reflexivity|].
  apply (WorkflowOperationEvent_enabled exampleBounds enabled_example
           context_Background CreateWorkflow ComponentName StatusSuccess
           elapsed_12_5 Hr).
  reflexivity.
Defined.

(** C4.  In an enabled world the host can reach, a call of
    [ExecutionEvent(ctx, component, executionType, status, elapsed)] returns
    and hands the backend exactly one increment of 1 of the execution
    counter tagged [{appID, component, namespace, executionType, status}],
    followed by exactly one observation of [elapsed] in the
    execution-latency distribution with the same tags when [elapsed > 0],
    and by nothing otherwise; with [elapsed = 0] only the counter increment
    is recorded. *)
Theorem ExecutionEvent_enabled
  (latencyBounds : list Z) (s : World)
  (ctx : Context) (component executionType status : string) (elapsed : float64) :
  Reachable latencyBounds s ->
  snd (run IsEnabled s) = Ret true ->
  exists w,
    recv s = Some w /\
    run (ExecutionEvent ctx component executionType status elapsed) s =
      (with_recorded s
         (execution_count_obs w ctx component executionType status ::
            (if float64_gt elapsed float64_zero
             then [execution_latency_obs w ctx component executionType status elapsed]
             else [])),
       Ret tt) /\
    (forall sign : bool,
        run (ExecutionEvent ctx component executionType status (S754_zero sign)) s =
          (with_recorded s
             [execution_count_obs w ctx component executionType status],
           Ret tt)).
Proof.
  intros Hreach. rewrite IsEnabled_run. cbn [snd]. intros Hen.
  destruct (Reachable_recorder latencyBounds s Hreach)
    as (w & Hw & _ & _ & H3 & H4).
  assert (He : enabled w = true).
  { unfold is_enabled in Hen. rewrite Hw in Hen. inversion Hen. reflexivity. }
  assert (Hrun : forall el,
    run (ExecutionEvent ctx component executionType status el) s =
      (with_recorded s
         (execution_count_obs w ctx component executionType status ::
            (if float64_gt el float64_zero
             then [execution_latency_obs w ctx component executionType status el]
             else [])),
       Ret tt)).
  { intros el.
    rewrite (ExecutionEvent_run s w executionCountMeasure
               executionLatencyMeasure ctx component executionType status el
               Hw He H3 H4).
    unfold with_recorded. rewrite <- app_assoc. reflexivity. }
  exists w. split; [exact Hw|]. split; [apply Hrun|].
  intros sign. rewrite Hrun, float64_zero_not_gt. reflexivity.
Qed.

(** The running example: a failed [activity] with no elapsed time, after
    [Init("a1", "ns1")]. *)
Lemma ExecutionEvent_enabled_witness :
  Reachable exampleBounds enabled_example /\
  snd (run IsEnabled enabled_example) = Ret true /\
  exists w,
    recv enabled_example = Some w /\
    run (ExecutionEvent context_Background ComponentName Activity StatusFailed
           float64_zero) enabled_example =
      (with_recorded enabled_example
         (execution_count_obs w context_Background ComponentName Activity
            StatusFailed ::
            (if float64_gt float64_zero float64_zero
             then [execution_latency_obs w context_Background ComponentName
                     Activity StatusFailed float64_zero]
             else [])),
       Ret tt) /\
    (forall sign : bool,
        run (ExecutionEvent context_Background ComponentName Activity
               StatusFailed (S754_zero sign)) enabled_example =
          (with_recorded enabled_example
             [execution_count_obs w context_Background ComponentName Activity
                StatusFailed],
           Ret tt)).
Proof.
  assert (Hr : Reachable exampleBounds enabled_example).
  { exists [], [], [CallInit "a1" "ns1"]. reflexivity. }
  split; [exact Hr|]. split; [reflexivity|].
  apply (ExecutionEvent_enabled exampleBounds enabled_example
           context_Background ComponentName Activity StatusFailed
           float64_zero Hr).
  reflexivity.
Defined.

(** C5.  Let a sequence [cs] of [Init] and Recorder calls run from the
    freshly constructed recorder and leave it enabled.  Then [cs] contains
    an [Init(a, n)] whose arguments are the recorder's appID and namespace
    (so both are non-empty when the arguments were), and whatever calls
    follow, the recorder is still enabled after them: nothing sets enabled
    back to false. *)
Theorem enabled_is_initialised_and_terminal
  (latencyBounds : list Z) (reg : list View) (obs : list Observation)
  (cs : list Call) (s : World) (w : workflowMetrics) :
  run (perform_all latencyBounds cs) (start reg obs) = (s, Ret tt) ->
  recv s = Some w ->
  enabled w = true ->
  (exists a n,
      In (CallInit a n) cs /\ appID w = a /\ namespace w = n /\
      (a <> EmptyString -> appID w <> EmptyString) /\
      (n <> EmptyString -> namespace w <> EmptyString)) /\
  (forall cs',
      is_enabled (fst (run (perform_all latencyBounds cs') s)) = true).
Proof.
  intros Hrun Hw He.
  destruct (perform_all_run latencyBounds cs (start reg obs)
              newWorkflowMetrics_literal eq_refl eq_refl)
    as (s0 & Hrun0 & Hw0 & Hh0).
  rewrite Hrun in Hrun0. inversion Hrun0; subst s0.
  rewrite Hw in Hw0. injection Hw0 as Hwe.
  split.
  - destruct (apply_calls_last_Init cs newWorkflowMetrics_literal)
      as [Hsame|(a & n & Hin & Hinit)].
    + rewrite Hwe, Hsame in He. discriminate He.
    + exists a, n. rewrite Hwe, Hinit. cbn.
      repeat split; auto.
  - intros cs'.
    destruct (perform_all_run latencyBounds cs' s w Hw)
      as (s' & Hrun' & Hw' & _).
    { rewrite Hwe. exact Hh0. }
    rewrite Hrun'. unfold is_enabled. cbn [fst]. rewrite Hw'.
    apply apply_calls_enabled. exact He.
Qed.

(** The sequence made of [Init("a1", "ns1")] alone. *)
Lemma enabled_is_initialised_and_terminal_witness :
  run (perform_all exampleBounds [CallInit "a1" "ns1"]) (start [] [])
    = (enabled_example, Ret tt) /\
  recv enabled_example = Some (initialised "a1" "ns1" newWorkflowMetrics_literal) /\
  enabled (initialised "a1" "ns1" newWorkflowMetrics_literal) = true /\
  (exists a n,
      In (CallInit a n) [CallInit "a1" "ns1"] /\
      appID (initialised "a1" "ns1" newWorkflowMetrics_literal) = a /\
      namespace (initialised "a1" "ns1" newWorkflowMetrics_literal) = n /\
      (a <> EmptyString ->
       appID (initialised "a1" "ns1" newWorkflowMetrics_literal) <> EmptyString) /\
      (n <> EmptyString ->
       namespace (initialised "a1" "ns1" newWorkflowMetrics_literal) <> EmptyString)) /\
  (forall cs',
      is_enabled (fst (run (perform_all exampleBounds cs') enabled_example))
        = true).
Proof.
  split; [reflexivity|]. split; [reflexivity|]. split; [reflexivity|].
  apply (enabled_is_initialised_and_terminal exampleBounds [] []
           [CallInit "a1" "ns1"] enabled_example
           (initialised "a1" "ns1" newWorkflowMetrics_literal));
    reflexivity.
Defined.

(** C6.  [IsEnabled()] returns false on the freshly constructed recorder,
    and returns true in the world a successful [Init(appID, namespace)]
    leaves. *)
Theorem IsEnabled_before_and_after_Init (latencyBounds : list Z) :
  (forall reg obs,
      run IsEnabled (start reg obs) = (start reg obs, Ret false)) /\
  (forall s s' a n,
      run (Init latencyBounds a n) s = (s', Ret None) ->
      run IsEnabled s' = (s', Ret true)).
Proof.
  split.
  - intros reg obs. reflexivity.
  - intros s s' a n Hrun.
    destruct (Init_returns_inv latencyBounds s s' a n None Hrun)
      as (w & Hw & _).
    pose proof (Init_recv latencyBounds s w a n Hw) as Hr.
    rewrite Hrun in Hr. cbn [fst] in Hr.
    rewrite IsEnabled_run. unfold is_enabled. rewrite Hr. reflexivity.
Qed.

(** Before and after [Init("a1", "ns1")] on an empty backend. *)
Lemma IsEnabled_before_and_after_Init_witness :
  run IsEnabled (start [] []) = (start [] [], Ret false) /\
  run (Init exampleBounds "a1" "ns1") (start [] []) = (enabled_example, Ret None) /\
  run IsEnabled enabled_example = (enabled_example, Ret true).
Proof.
  split; [apply (proj1 (IsEnabled_before_and_after_Init exampleBounds))|].
  split; [reflexivity|].
  apply (proj2 (IsEnabled_before_and_after_Init exampleBounds)
           (start [] []) enabled_example "a1" "ns1").
  reflexivity.
Defined.

(** C7.  In any world, after [WorkflowOperationEvent] or [ExecutionEvent]
    the recorder is what it was before the call, field for field (nil stays
    nil); the view registry is untouched, and the only effect is that the
    backend may have received further observations. *)
Theorem Recorder_calls_frame
  (s : World) (ctx : Context) (operation component status : string)
  (elapsed : float64)
  (ctx' : Context) (component' executionType status' : string)
  (elapsed' : float64) :
  (recv (fst (run (WorkflowOperationEvent ctx operation component status
                     elapsed) s)) = recv s /\
   views (fst (run (WorkflowOperationEvent ctx operation component status
                      elapsed) s)) = views s /\
   exists new,
     recorded (fst (run (WorkflowOperationEvent ctx operation component status
                           elapsed) s)) = recorded s ++ new) /\
  (recv (fst (run (ExecutionEvent ctx' component' executionType status'
                     elapsed') s)) = recv s /\
   views (fst (run (ExecutionEvent ctx' component' executionType status'
                      elapsed') s)) = views s /\
   exists new,
     recorded (fst (run (ExecutionEvent ctx' component' executionType status'
                           elapsed') s)) = recorded s ++ new).
Proof.
  split.
  - apply WorkflowOperationEvent_frame.
  - apply ExecutionEvent_frame.
Qed.

(** C8.  After a successful [Init(appID, namespace)], a second [Init] with
    the same arguments never panics and leaves the recorder exactly as the
    first call left it, whether it answers nil or a [RegistrationError].
    Called right after the first one it answers nil and the whole world,
    view registry included, is the one the first call left. *)
Theorem Init_twice
  (latencyBounds : list Z) (s0 s1 : World) (a n : string) :
  run (Init latencyBounds a n) s0 = (s1, Ret None) ->
  run (Init latencyBounds a n) s1 = (s1, Ret None) /\
  (forall s,
      recv s = recv s1 ->
      exists s2 err,
        run (Init latencyBounds a n) s = (s2, Ret err) /\
        recv s2 = recv s1 /\
        recorded s2 = recorded s /\
        (err = None \/ exists name, err = Some (RegistrationError name))).
Proof.
  intros Hrun.
  destruct (Init_returns_inv latencyBounds s0 s1 a n None Hrun)
    as (w & Hw & Hh).
  rewrite (Init_run latencyBounds s0 w a n Hw Hh) in Hrun.
  injection Hrun as Hs1 Herr.
  assert (Hw1 : recv s1 = Some (initialised a n w)) by (subst s1; reflexivity).
  assert (Hh1 : handles_set (initialised a n w) = true) by exact Hh.
  split.
  - rewrite (Init_run latencyBounds s1 (initialised a n w) a n Hw1 Hh1).
    change (init_views latencyBounds (initialised a n w))
      with (init_views latencyBounds w).
    rewrite initialised_initialised.
    assert (Hreg : register_all (init_views latencyBounds w) (views s1)
                   = (views s1, None)).
    { apply (register_all_again _ (views s0)).
      rewrite <- Hs1. cbn [views].
      rewrite <- Herr. apply surjective_pairing. }
    rewrite Hreg. cbn [fst snd]. rewrite <- Hw1.
    f_equal. apply World_eta.
  - intros s Hs. rewrite Hw1 in Hs.
    rewrite (Init_run latencyBounds s (initialised a n w) a n Hs Hh1).
    do 2 eexists. split; [reflexivity|].
    cbn [recv recorded]. rewrite initialised_initialised.
    split; [symmetry; exact Hw1|]. split; [reflexivity|].
    destruct (snd (register_all _ (views s))) as [[name]|].
    + right. exists name. reflexivity.
    + left. reflexivity.
Qed.

(** [Init("a1", "ns1")] twice on an empty backend. *)
Lemma Init_twice_witness :
  run (Init exampleBounds "a1" "ns1") (start [] []) = (enabled_example, Ret None) /\
  run (Init exampleBounds "a1" "ns1") enabled_example = (enabled_example, Ret None) /\
  (forall s,
      recv s = recv enabled_example ->
      exists s2 err,
        run (Init exampleBounds "a1" "ns1") s = (s2, Ret err) /\
        recv s2 = recv enabled_example /\
        recorded s2 = recorded s /\
        (err = None \/ exists name, err = Some (RegistrationError name))).
Proof.
  split; [reflexivity|].
  apply (Init_twice exampleBounds (start [] []) enabled_example "a1" "ns1").
  reflexivity.
Defined.

(** [Init] is its first two assignments followed by the rest. *)
Lemma Init_is_lines_87_88_then_89_95
  (latencyBounds : list Z) (s : World) (a n : string) :
  run (Init latencyBounds a n) s =
    run (Init_lines_87_88 a ;; Init_lines_89_95 latencyBounds n) s.
Proof.
  destruct s as [[w|] reg obs]; reflexivity.
Qed.

(** C9, as stated, fails.  [Init("a1", "ns1")] on the freshly constructed
    recorder passes, after line 88, through a world in which a concurrent
    reader finds enabled set and the namespace not yet written: there
    [IsEnabled] returns true, and [WorkflowOperationEvent] records with the
    app id "a1" and the empty namespace.  That is neither what the reader
    does before [Init] (it returns false, respectively records nothing) nor
    what it does after [Init] (it records with the namespace "ns1"). *)
Lemma Init_publish_is_torn :
  run (Init exampleBounds "a1" "ns1") (start [] [])
    = run (Init_lines_89_95 exampleBounds "ns1") after_line_88_example /\
  snd (run IsEnabled (start [] [])) = Ret false /\
  snd (run IsEnabled after_line_88_example) = Ret true /\
  recorded
    (fst (run (WorkflowOperationEvent context_Background CreateWorkflow
                 ComponentName StatusSuccess elapsed_12_5)
            (start [] []))) = [] /\
  recorded
    (fst (run (WorkflowOperationEvent context_Background CreateWorkflow
                 ComponentName StatusSuccess elapsed_12_5)
            after_line_88_example))
    = operation_event_obs "a1" EmptyString context_Background CreateWorkflow
        ComponentName StatusSuccess elapsed_12_5 /\
  recorded
    (fst (run (WorkflowOperationEvent context_Background CreateWorkflow
                 ComponentName StatusSuccess elapsed_12_5)
            enabled_example))
    = operation_event_obs "a1" "ns1" context_Background CreateWorkflow
        ComponentName StatusSuccess elapsed_12_5 /\
  operation_event_obs "a1" EmptyString context_Background CreateWorkflow
    ComponentName StatusSuccess elapsed_12_5 <> [] /\
  operation_event_obs "a1" EmptyString context_Background CreateWorkflow
    ComponentName StatusSuccess elapsed_12_5
    <> operation_event_obs "a1" "ns1" context_Background CreateWorkflow
         ComponentName StatusSuccess elapsed_12_5.
Proof.
  repeat split; try (vm_compute; reflexivity); discriminate.
Qed.

(** C9, amended.  [Init] assigns appID and enabled (lines 87-88) before,
    and separately from, namespace (line 89): the triple is not published
    atomically.  In a reachable world, an [IsEnabled],
    [WorkflowOperationEvent] or [ExecutionEvent] call ordered before [Init]
    observes the complete pre-Init triple, and one ordered after [Init]
    has returned observes the complete post-Init triple; a call that
    executes between the second and the third assignment of [Init]
    observes enabled set and the new app id together with the pre-Init
    namespace. *)
Theorem Init_assigns_namespace_after_enabled
  (latencyBounds : list Z) (s : World) (a n : string)
  (ctx : Context) (operation component status : string) (elapsed : float64)
  (ctx' : Context) (component' executionType status' : string)
  (elapsed' : float64) :
  Reachable latencyBounds s ->
  exists w s_mid s_post err,
    recv s = Some w /\
    run (Init_lines_87_88 a) s = (s_mid, Ret tt) /\
    run (Init_lines_89_95 latencyBounds n) s_mid = (s_post, Ret err) /\
    run (Init latencyBounds a n) s = (s_post, Ret err) /\
    (run IsEnabled s = (s, Ret (enabled w)) /\
     run (WorkflowOperationEvent ctx operation component status elapsed) s =
       (with_recorded s
          (if enabled w
           then operation_event_obs (appID w) (namespace w) ctx operation
                  component status elapsed
           else []),
        Ret tt) /\
     run (ExecutionEvent ctx' component' executionType status' elapsed') s =
       (with_recorded s
          (if enabled w
           then execution_event_obs (appID w) (namespace w) ctx' component'
                  executionType status' elapsed'
           else []),
        Ret tt)) /\
    (run IsEnabled s_mid = (s_mid, Ret true) /\
     run (WorkflowOperationEvent ctx operation component status elapsed) s_mid =
       (with_recorded s_mid
          (operation_event_obs a (namespace w) ctx operation component status
             elapsed),
        Ret tt) /\
     run (ExecutionEvent ctx' component' executionType status' elapsed') s_mid =
       (with_recorded s_mid
          (execution_event_obs a (namespace w) ctx' component' executionType
             status' elapsed'),
        Ret tt)) /\
    (run IsEnabled s_post = (s_post, Ret true) /\
     run (WorkflowOperationEvent ctx operation component status elapsed) s_post =
       (with_recorded s_post
          (operation_event_obs a n ctx operation component status elapsed),
        Ret tt) /\
     run (ExecutionEvent ctx' component' executionType status' elapsed') s_post =
       (with_recorded s_post
          (execution_event_obs a n ctx' component' executionType status'
             elapsed'),
        Ret tt)).
Proof.
  intros Hr.
  destruct (Reachable_recorder latencyBounds s Hr)
    as (w & Hw & H1 & H2 & H3 & H4).
  assert (Hh : handles_set w = true).
  { unfold handles_set. rewrite H1, H2, H3, H4. reflexivity. }
  assert (Hsplit := Init_is_lines_87_88_then_89_95 latencyBounds s a n).
  assert (Hmid : run (Init_lines_87_88 a) s =
                 ({| recv := Some (set_enabled true (set_appID a w));
                     views := views s; recorded := recorded s |}, Ret tt)).
  { unfold Init_lines_87_88.
    go_step (run_store s w (set_appID a) Hw).
    reflexivity. }
  rewrite (run_bind_ret _ _ _ _ _ Hmid) in Hsplit.
  rewrite (Init_run latencyBounds s w a n Hw Hh) in Hsplit.
  set (s_mid := {| recv := Some (set_enabled true (set_appID a w)) |}) in *.
  set (s_post := {| recv := Some (initialised a n w) |}) in *.
  assert (Hwm : recv s_mid = Some (set_enabled true (set_appID a w)))
    by reflexivity.
  assert (Hwp : recv s_post = Some (initialised a n w)) by reflexivity.
  assert (Hobs : forall (s0 : World) (w0 : workflowMetrics),
             recv s0 = Some w0 ->
             enabled w0 = true ->
             handles w0 = handles w ->
             run (WorkflowOperationEvent ctx operation component status
                    elapsed) s0 =
               (with_recorded s0
                  (operation_event_obs (appID w0) (namespace w0) ctx operation
                     component status elapsed), Ret tt) /\
             run (ExecutionEvent ctx' component' executionType status'
                    elapsed') s0 =
               (with_recorded s0
                  (execution_event_obs (appID w0) (namespace w0) ctx'
                     component' executionType status' elapsed'), Ret tt)).
  { intros s0 w0 Hw0 He0 Hh0. unfold handles in Hh0.
    injection Hh0 as G1 G2 G3 G4.
    rewrite H1 in G1. rewrite H2 in G2. rewrite H3 in G3. rewrite H4 in G4.
    split.
    - rewrite (WorkflowOperationEvent_run s0 w0 operationCountMeasure
                 operationLatencyMeasure ctx operation component status
                 elapsed Hw0 He0 G1 G2).
      unfold with_recorded, operation_event_obs.
      rewrite <- app_assoc. reflexivity.
    - rewrite (ExecutionEvent_run s0 w0 executionCountMeasure
                 executionLatencyMeasure ctx' component' executionType
                 status' elapsed' Hw0 He0 G3 G4).
      unfold with_recorded, execution_event_obs.
      rewrite <- app_assoc. reflexivity. }
  exists w, s_mid, s_post,
    (snd (register_all (init_views latencyBounds w) (views s))).
  split; [exact Hw|]. split; [exact Hmid|].
  split; [symmetry; exact Hsplit|].
  split; [apply (Init_run latencyBounds s w a n Hw Hh)|].
  split; [|split].
  - split.
    { rewrite IsEnabled_run. unfold is_enabled. rewrite Hw. reflexivity. }
    destruct (enabled w) eqn:He.
    + apply (Hobs s w Hw He eq_refl).
    + assert (Hd : is_enabled s = false)
        by (unfold is_enabled; rewrite Hw; exact He).
      rewrite (WorkflowOperationEvent_disabled s ctx operation component
                 status elapsed Hd).
      rewrite (ExecutionEvent_disabled s ctx' component' executionType
                 status' elapsed' Hd).
      unfold with_recorded. rewrite app_nil_r, World_eta. split; reflexivity.
  - split; [rewrite IsEnabled_run; reflexivity|].
    apply (Hobs s_mid _ Hwm eq_refl eq_refl).
  - split; [rewrite IsEnabled_run; reflexivity|].
    apply (Hobs s_post _ Hwp eq_refl eq_refl).
Qed.

(** [Init("a1", "ns1")] on a freshly constructed recorder and an empty
    backend, with the running examples as the concurrent calls. *)
Lemma Init_assigns_namespace_after_enabled_witness :
  Reachable exampleBounds (start [] []) /\
  exists w s_mid s_post err,
    recv (start [] []) = Some w /\
    run (Init_lines_87_88 "a1") (start [] []) = (s_mid, Ret tt) /\
    run (Init_lines_89_95 exampleBounds "ns1") s_mid = (s_post, Ret err) /\
    run (Init exampleBounds "a1" "ns1") (start [] []) = (s_post, Ret err) /\
    (run IsEnabled (start [] []) = (start [] [], Ret (enabled w)) /\
     run (WorkflowOperationEvent context_Background CreateWorkflow
            ComponentName StatusSuccess elapsed_12_5) (start [] []) =
       (with_recorded (start [] [])
          (if enabled w
           then operation_event_obs (appID w) (namespace w) context_Background
                  CreateWorkflow ComponentName StatusSuccess elapsed_12_5
           else []),
        Ret tt) /\
     run (ExecutionEvent context_Background ComponentName Activity
            StatusFailed float64_zero) (start [] []) =
       (with_recorded (start [] [])
          (if enabled w
           then execution_event_obs (appID w) (namespace w) context_Background
                  ComponentName Activity StatusFailed float64_zero
           else []),
        Ret tt)) /\
    (run IsEnabled s_mid = (s_mid, Ret true) /\
     run (WorkflowOperationEvent context_Background CreateWorkflow
            ComponentName StatusSuccess elapsed_12_5) s_mid =
       (with_recorded s_mid
          (operation_event_obs "a1" (namespace w) context_Background
             CreateWorkflow ComponentName StatusSuccess elapsed_12_5),
        Ret tt) /\
     run (ExecutionEvent context_Background ComponentName Activity
            StatusFailed float64_zero) s_mid =
       (with_recorded s_mid
          (execution_event_obs "a1" (namespace w) context_Background
             ComponentName Activity StatusFailed float64_zero),
        Ret tt)) /\
    (run IsEnabled s_post = (s_post, Ret true) /\
     run (WorkflowOperationEvent context_Background CreateWorkflow
            ComponentName StatusSuccess elapsed_12_5) s_post =
       (with_recorded s_post
          (operation_event_obs "a1" "ns1" context_Background CreateWorkflow
             ComponentName StatusSuccess elapsed_12_5),
        Ret tt) /\
     run (ExecutionEvent context_Background ComponentName Activity
            StatusFailed float64_zero) s_post =
       (with_recorded s_post
          (execution_event_obs "a1" "ns1" context_Background ComponentName
             Activity StatusFailed float64_zero),
        Ret tt)).
Proof.
  assert (Hr : Reachable exampleBounds (start [] [])).
  { exists [], [], []. reflexivity. }
  split; [exact Hr|].
  apply (Init_assigns_namespace_after_enabled exampleBounds (start [] [])
           "a1" "ns1" context_Background CreateWorkflow ComponentName
           StatusSuccess elapsed_12_5 context_Background ComponentName
           Activity StatusFailed float64_zero Hr).
Defined.

(** C10.  [IsEnabled()] on the nil receiver returns false, without a panic
    and without touching anything, for a backend in any condition. *)
Theorem IsEnabled_nil_receiver (reg : list View) (obs : list Observation) :
  run IsEnabled (nil_receiver reg obs) = (nil_receiver reg obs, Ret false).
Proof. reflexivity. Qed.

(** * Further properties of the recorder *)

(** ** More on the view registry *)

Lemma registered_app_other (name : string) (reg : list View) (v : View) :
  Name v <> name -> registered name (reg ++ [v]) = registered name reg.
Proof.
  intros Hne. unfold registered. induction reg as [|y reg IH]; cbn.
  - destruct (String.eqb_spec (Name v) name); [contradiction | reflexivity].
  - destruct (Name y =? name)%string; auto.
Qed.

Lemma admits_app_other (reg : list View) (v v' : View) :
  Name v <> Name v' -> admits (reg ++ [v]) v' = admits reg v'.
Proof.
  intros Hne. unfold admits. rewrite registered_app_other by exact Hne.
  reflexivity.
Qed.

(** Views with fresh, pairwise distinct names are all added, in order. *)
Lemma register_all_fresh (vs : list View) :
  forall reg,
    NoDup (map Name vs) ->
    (forall v, In v vs -> registered (Name v) reg = None) ->
    register_all vs reg = (reg ++ vs, None).
Proof.
  induction vs as [|v rest IH]; intros reg Hnd Hfree; cbn.
  - rewrite app_nil_r. reflexivity.
  - rewrite (Hfree v (or_introl eq_refl)).
    inversion Hnd as [|? ? Hnotin Hnd']; subst.
    rewrite IH; [rewrite <- app_assoc; reflexivity | exact Hnd' |].
    intros v' Hin. rewrite registered_app_other.
    + apply Hfree. right. exact Hin.
    + intros Heq. apply Hnotin. rewrite Heq. apply in_map. exact Hin.
Qed.

(** Registration of views with pairwise distinct names succeeds exactly
    when the registry admits each of them. *)
Lemma register_all_ok_iff (vs : list View) :
  forall reg,
    NoDup (map Name vs) ->
    (snd (register_all vs reg) = None <-> forallb (admits reg) vs = true).
Proof.
  induction vs as [|v rest IH]; intros reg Hnd; cbn.
  - split; reflexivity.
  - inversion Hnd as [|? ? Hnotin Hnd']; subst.
    unfold admits at 1.
    destruct (registered (Name v) reg) as [x|] eqn:Hx.
    + destruct (same_definition x v); cbn.
      * exact (IH reg Hnd').
      * split; intros H; discriminate H.
    + cbn. rewrite (IH (reg ++ [v]) Hnd').
      assert (Hext : forallb (admits (reg ++ [v])) rest
                     = forallb (admits reg) rest).
      { clear IH Hnd Hnd'. induction rest as [|v' rest IHr]; [reflexivity|].
        cbn. rewrite admits_app_other, IHr; [reflexivity | |].
        - intros Hin. apply Hnotin. right. exact Hin.
        - intros Heq. apply Hnotin. left. symmetry. exact Heq. }
      rewrite Hext. reflexivity.
Qed.

(** A registration error names a view of the call whose name is registered
    with another definition. *)
Lemma register_all_error (vs : list View) :
  forall reg reg' name,
    register_all vs reg = (reg', Some (RegistrationError name)) ->
    exists v x,
      In v vs /\ Name v = name /\
      registered name reg' = Some x /\ same_definition x v = false.
Proof.
  induction vs as [|v rest IH]; intros reg reg' name Hr; cbn in Hr.
  - discriminate.
  - destruct (registered (Name v) reg) as [x|] eqn:Hx.
    + destruct (same_definition x v) eqn:Hsame.
      * destruct (IH _ _ _ Hr) as (v' & x' & Hin & H).
        exists v', x'. split; [right; exact Hin | exact H].
      * injection Hr as <- <-. exists v, x.
        split; [left; reflexivity|]. repeat split; assumption.
    + destruct (IH _ _ _ Hr) as (v' & x' & Hin & H).
      exists v', x'. split; [right; exact Hin | exact H].
Qed.

(** The views of a reachable recorder are the four of [workflow_views], and
    their names are pairwise distinct. *)
Lemma Reachable_init_views (latencyBounds : list Z) (s : World) :
  Reachable latencyBounds s ->
  exists w,
    recv s = Some w /\ handles_set w = true /\
    init_views latencyBounds w = workflow_views latencyBounds.
Proof.
  intros Hr.
  destruct (Reachable_recorder latencyBounds s Hr)
    as (w & Hw & H1 & H2 & H3 & H4).
  exists w. split; [exact Hw|].
  unfold handles_set, init_views, workflow_views.
  rewrite H1, H2, H3, H4. split; reflexivity.
Qed.

Lemma workflow_views_NoDup (latencyBounds : list Z) :
  NoDup (map Name (workflow_views latencyBounds)).
Proof.
  cbn. repeat constructor; cbn; intuition discriminate.
Qed.

(** ** [Init]: edge cases and effect on the registry *)

(** X1.  [Init] is not nil-safe: on the nil receiver it panics at its first
    assignment, before anything is registered, and leaves the backend as it
    was. *)
Theorem Init_nil_receiver_panics
  (latencyBounds : list Z) (reg : list View) (obs : list Observation)
  (a n : string) :
  run (Init latencyBounds a n) (nil_receiver reg obs)
    = (nil_receiver reg obs, Panic nil_dereference).
Proof. apply Init_nil. reflexivity. Qed.

(** X2.  On a recorder built by [newWorkflowMetrics], [Init] returns, and
    it returns nil exactly when the registry admits each of the four views:
    the name is free or registered with the same tag keys and
    aggregation. *)
Theorem Init_succeeds_iff_admitted
  (latencyBounds : list Z) (s : World) (a n : string) :
  Reachable latencyBounds s ->
  exists s' err,
    run (Init latencyBounds a n) s = (s', Ret err) /\
    (err = None <->
     forall v, In v (workflow_views latencyBounds) -> admits (views s) v = true).
Proof.
  intros Hr.
  destruct (Reachable_init_views latencyBounds s Hr) as (w & Hw & Hh & Hv).
  do 2 eexists. split; [apply (Init_run latencyBounds s w a n Hw Hh)|].
  rewrite Hv.
  rewrite (register_all_ok_iff (workflow_views latencyBounds) (views s)
             (workflow_views_NoDup latencyBounds)).
  apply forallb_forall.
Qed.

(** [Init] on a freshly constructed recorder and an empty registry. *)
Lemma Init_succeeds_iff_admitted_witness :
  Reachable exampleBounds (start [] []) /\
  exists s' err,
    run (Init exampleBounds "a1" "ns1") (start [] []) = (s', Ret err) /\
    (err = None <->
     forall v, In v (workflow_views exampleBounds) ->
               admits (views (start [] [])) v = true).
Proof.
  assert (Hr : Reachable exampleBounds (start [] [])).
  { exists [], [], []. reflexivity. }
  split; [exact Hr|].
  apply (Init_succeeds_iff_admitted exampleBounds (start [] []) "a1" "ns1" Hr).
Defined.

(** X3.  When none of the four measure names is registered, [Init] on a
    recorder built by [newWorkflowMetrics] returns nil and appends exactly
    the four views to the registry, in the order of the source: operation
    count, operation latency, execution count, execution latency. *)
Theorem Init_registers_four_views
  (latencyBounds : list Z) (s : World) (a n : string) :
  Reachable latencyBounds s ->
  (forall v, In v (workflow_views latencyBounds) ->
             registered (Name v) (views s) = None) ->
  exists w,
    recv s = Some w /\
    run (Init latencyBounds a n) s =
      ({| recv := Some (initialised a n w);
          views := views s ++ workflow_views latencyBounds;
          recorded := recorded s |},
       Ret None).
Proof.
  intros Hr Hfree.
  destruct (Reachable_init_views latencyBounds s Hr) as (w & Hw & Hh & Hv).
  exists w. split; [exact Hw|].
  rewrite (Init_run latencyBounds s w a n Hw Hh), Hv.
  rewrite (register_all_fresh (workflow_views latencyBounds) (views s)
             (workflow_views_NoDup latencyBounds) Hfree).
  reflexivity.
Qed.

(** [Init] on a freshly constructed recorder and an empty registry. *)
Lemma Init_registers_four_views_witness :
  Reachable exampleBounds (start [] []) /\
  (forall v, In v (workflow_views exampleBounds) ->
             registered (Name v) (views (start [] [])) = None) /\
  exists w,
    recv (start [] []) = Some w /\
    run (Init exampleBounds "a1" "ns1") (start [] []) =
      ({| recv := Some (initialised "a1" "ns1" w);
          views := views (start [] []) ++ workflow_views exampleBounds;
          recorded := recorded (start [] []) |},
       Ret None).
Proof.
  assert (Hr : Reachable exampleBounds (start [] [])).
  { exists [], [], []. reflexivity. }
  assert (Hf : forall v, In v (workflow_views exampleBounds) ->
                         registered (Name v) (views (start [] [])) = None).
  { intros v _. reflexivity. }
  split; [exact Hr|]. split; [exact Hf|].
  apply (Init_registers_four_views exampleBounds (start [] []) "a1" "ns1" Hr Hf).
Defined.

(** X4.  In any world, also when it panics, [Init] hands nothing to the
    recording side of the backend and never removes or redefines a
    registered view: every name keeps the view it stood for. *)
Theorem Init_keeps_registrations
  (latencyBounds : list Z) (s : World) (a n : string) :
  recorded (fst (run (Init latencyBounds a n) s)) = recorded s /\
  (forall name x,
      registered name (views s) = Some x ->
      registered name (views (fst (run (Init latencyBounds a n) s))) = Some x).
Proof.
  destruct (recv s) as [w|] eqn:Hw.
  - destruct (handles_set w) eqn:Hh.
    + rewrite (Init_run latencyBounds s w a n Hw Hh). cbn [fst recorded views].
      split; [reflexivity|]. intros name x Hx.
      eapply register_all_preserves; [apply surjective_pairing | exact Hx].
    + destruct s as [r reg obs]; cbn in Hw; subst r.
      destruct w as [[oc|] [ol|] [ec|] [el|] a0 e0 n0];
        try discriminate Hh; (split; [reflexivity | intros name x Hx; exact Hx]).
  - rewrite (Init_nil latencyBounds s a n Hw). split; [reflexivity | auto].
Qed.

(** X5.  When [Init] on a recorder built by [newWorkflowMetrics] returns an
    error, the error names one of the recorder's four views, and the
    registry holds, under that name, a view with other tag keys or another
    aggregation. *)
Theorem Init_error_names_conflicting_view
  (latencyBounds : list Z) (s s' : World) (a n name : string) :
  Reachable latencyBounds s ->
  run (Init latencyBounds a n) s = (s', Ret (Some (RegistrationError name))) ->
  exists v x,
    In v (workflow_views latencyBounds) /\ Name v = name /\
    registered name (views s') = Some x /\ same_definition x v = false.
Proof.
  intros Hr Hrun.
  destruct (Reachable_init_views latencyBounds s Hr) as (w & Hw & Hh & Hv).
  rewrite (Init_run latencyBounds s w a n Hw Hh), Hv in Hrun.
  injection Hrun as Hs' Herr.
  apply (register_all_error (workflow_views latencyBounds) (views s)).
  rewrite <- Hs'. cbn [views]. rewrite <- Herr. apply surjective_pairing.
Qed.

(** [Init] against the backend that holds the earlier variant's view. *)
Lemma Init_error_names_conflicting_view_witness :
  Reachable exampleBounds conflicting_start /\
  run (Init exampleBounds "a1" "ns1") conflicting_start
    = (fst (run (Init exampleBounds "a1" "ns1") conflicting_start),
       Ret (Some (RegistrationError "runtime/workflow/execution/latency"))) /\
  exists v x,
    In v (workflow_views exampleBounds) /\
    Name v = "runtime/workflow/execution/latency" /\
    registered "runtime/workflow/execution/latency"
      (views (fst (run (Init exampleBounds "a1" "ns1") conflicting_start)))
      = Some x /\
    same_definition x v = false.
Proof.
  assert (Hr : Reachable exampleBounds conflicting_start).
  { exists [legacyExecutionLatencyView exampleBounds], [], []. reflexivity. }
  assert (Hrun : run (Init exampleBounds "a1" "ns1") conflicting_start
    = (fst (run (Init exampleBounds "a1" "ns1") conflicting_start),
       Ret (Some (RegistrationError "runtime/workflow/execution/latency")))).
  { vm_compute. reflexivity. }
  split; [exact Hr|]. split; [exact Hrun|].
  apply (Init_error_names_conflicting_view exampleBounds conflicting_start
           (fst (run (Init exampleBounds "a1" "ns1") conflicting_start))
           "a1" "ns1" "runtime/workflow/execution/latency" Hr Hrun).
Defined.

(** ** Call sequences: what reaches the backend *)

Lemma handles_literal_inv (w : workflowMetrics) :
  handles w = handles newWorkflowMetrics_literal ->
  workflowOperationCount w = Some operationCountMeasure /\
  workflowOperationLatency w = Some operationLatencyMeasure /\
  workflowExecutionCount w = Some executionCountMeasure /\
  workflowExecutionLatency w = Some executionLatencyMeasure.
Proof.
  unfold handles. intros H. injection H as H1 H2 H3 H4.
  rewrite H1, H2, H3, H4. repeat split.
Qed.

Lemma handles_literal_set (w : workflowMetrics) :
  handles w = handles newWorkflowMetrics_literal -> handles_set w = true.
Proof.
  intros H. destruct (handles_literal_inv w H) as (H1 & H2 & H3 & H4).
  unfold handles_set. rewrite H1, H2, H3, H4. reflexivity.
Qed.

Section Traces.

Variable latencyBounds : list Z.

(** One call on a recorder built by [newWorkflowMetrics] returns, writes
    the recorder as [apply_call] says and hands [call_observations] to the
    backend. *)
Lemma perform_trace (c : Call) (s : World) (w : workflowMetrics) :
  recv s = Some w ->
  handles w = handles newWorkflowMetrics_literal ->
  exists s',
    run (perform latencyBounds c) s = (s', Ret tt) /\
    recv s' = Some (apply_call c w) /\
    recorded s' = recorded s ++ call_observations w c.
Proof.
  intros Hw Hh.
  destruct (handles_literal_inv w Hh) as (H1 & H2 & H3 & H4).
  pose proof (handles_literal_set w Hh) as Hset.
  destruct c as [a n|ctx op comp st el|ctx comp ty st el|]; cbn [call_observations].
  - unfold perform.
    go_step (Init_run latencyBounds s w a n Hw Hset).
    eexists. split; [reflexivity|]. split; [reflexivity|].
    cbn [recorded]. rewrite app_nil_r. reflexivity.
  - cbn [perform apply_call]. destruct (enabled w) eqn:He.
    + rewrite (WorkflowOperationEvent_run s w _ _ ctx op comp st el Hw He H1 H2).
      eexists. split; [reflexivity|]. split; [exact Hw|].
      cbn [recorded]. rewrite <- app_assoc. reflexivity.
    + rewrite WorkflowOperationEvent_disabled
        by (unfold is_enabled; rewrite Hw; exact He).
      exists s. split; [reflexivity|]. split; [exact Hw|].
      rewrite app_nil_r. reflexivity.
  - cbn [perform apply_call]. destruct (enabled w) eqn:He.
    + rewrite (ExecutionEvent_run s w _ _ ctx comp ty st el Hw He H3 H4).
      eexists. split; [reflexivity|]. split; [exact Hw|].
      cbn [recorded]. rewrite <- app_assoc. reflexivity.
    + rewrite ExecutionEvent_disabled
        by (unfold is_enabled; rewrite Hw; exact He).
      exists s. split; [reflexivity|]. split; [exact Hw|].
      rewrite app_nil_r. reflexivity.
  - unfold perform. go_step (IsEnabled_run s).
    exists s. split; [reflexivity|]. split; [exact Hw|].
    rewrite app_nil_r. reflexivity.
Qed.

Lemma handles_apply_call (c : Call) (w : workflowMetrics) :
  handles (apply_call c w) = handles w.
Proof. destruct c; reflexivity. Qed.

(** The same for a sequence of calls. *)
Lemma perform_all_trace (cs : list Call) :
  forall (s : World) (w : workflowMetrics),
    recv s = Some w ->
    handles w = handles newWorkflowMetrics_literal ->
    exists s',
      run (perform_all latencyBounds cs) s = (s', Ret tt) /\
      recv s' = Some (apply_calls cs w) /\
      recorded s' = recorded s ++ calls_observations w cs.
Proof.
  induction cs as [|c rest IH]; intros s w Hw Hh.
  - exists s. split; [reflexivity|]. split; [exact Hw|].
    cbn. rewrite app_nil_r. reflexivity.
  - destruct (perform_trace c s w Hw Hh) as (s1 & Hrun & Hw1 & Hrec1).
    destruct (IH s1 (apply_call c w) Hw1) as (s' & Hrun' & Hw' & Hrec').
    { rewrite handles_apply_call. exact Hh. }
    exists s'. cbn [perform_all]. go_step Hrun.
    split; [exact Hrun'|]. split; [exact Hw'|].
    rewrite Hrec', Hrec1. cbn [calls_observations].
    rewrite app_assoc. reflexivity.
Qed.

(** The recorder of a reachable world has the handles of
    [newWorkflowMetrics]. *)
Lemma Reachable_handles_literal (s : World) :
  Reachable latencyBounds s ->
  exists w, recv s = Some w /\ handles w = handles newWorkflowMetrics_literal.
Proof.
  intros Hr.
  destruct (Reachable_recorder latencyBounds s Hr)
    as (w & Hw & H1 & H2 & H3 & H4).
  exists w. split; [exact Hw|]. unfold handles.
  rewrite H1, H2, H3, H4. reflexivity.
Qed.

End Traces.

(** Counting the observations of a call sequence. *)
Lemma calls_observations_increments (cs : list Call) :
  forall w,
    length (filter is_increment (calls_observations w cs))
      = effective_events (enabled w) cs.
Proof.
  induction cs as [|c rest IH]; intros w; [reflexivity|].
  cbn [calls_observations]. rewrite filter_app, length_app, IH.
  destruct c as [a n|ctx op comp st el|ctx comp ty st el|];
    cbn [call_observations apply_call effective_events];
    try reflexivity;
    destruct (enabled w); try reflexivity;
    destruct (float64_gt el float64_zero); reflexivity.
Qed.

Lemma calls_observations_latencies (cs : list Call) :
  forall w,
    length (filter is_latency (calls_observations w cs))
      = effective_timed_events (enabled w) cs.
Proof.
  induction cs as [|c rest IH]; intros w; [reflexivity|].
  cbn [calls_observations]. rewrite filter_app, length_app, IH.
  destruct c as [a n|ctx op comp st el|ctx comp ty st el|];
    cbn [call_observations apply_call effective_timed_events];
    try reflexivity;
    destruct (enabled w); try reflexivity;
    destruct (float64_gt el float64_zero); reflexivity.
Qed.

(** Every observation of a call sequence is for one of the four views, with
    that view's tag keys. *)
Lemma calls_observations_keys (latencyBounds : list Z) (cs : list Call) :
  forall w,
    Forall (fun o =>
              exists v, In v (workflow_views latencyBounds) /\
                        Name v = obs_measure_name o /\
                        TagKeys v = obs_keys o)
           (calls_observations w cs).
Proof.
  pose (pick := fun k => nth k (workflow_views latencyBounds)
                          (legacyExecutionLatencyView latencyBounds)).
  induction cs as [|c rest IH]; intros w; [constructor|].
  cbn [calls_observations]. apply Forall_app. split; [|apply IH].
  destruct c as [a n|ctx op comp st el|ctx comp ty st el|];
    cbn [call_observations]; [constructor| | |constructor].
  - destruct (enabled w); [|constructor]. constructor.
    + exists (pick 0). split; [cbn; tauto | split; reflexivity].
    + destruct (float64_gt el float64_zero); constructor; [|constructor].
      exists (pick 1). split; [cbn; tauto | split; reflexivity].
  - destruct (enabled w); [|constructor]. constructor.
    + exists (pick 2). split; [cbn; tauto | split; reflexivity].
    + destruct (float64_gt el float64_zero); constructor; [|constructor].
      exists (pick 3). split; [cbn; tauto | split; reflexivity].
Qed.

Lemma float64_gt_zero_positive (x : float64) :
  float64_gt x float64_zero = float64_positive x.
Proof. destruct x as [s|s| |s m e]; try destruct s; reflexivity. Qed.

(** X6.  [Init(a, n)] followed by a recorder call, on a recorder built by
    [newWorkflowMetrics] in whatever state: [Init] returns (nil or an
    error), and the events recorded afterwards carry the app id and the
    namespace of this [Init], not those of an earlier one. *)
Theorem Init_then_events_carry_its_arguments
  (latencyBounds : list Z) (s : World) (a n : string)
  (ctx : Context) (operation component status : string) (elapsed : float64)
  (ctx' : Context) (component' executionType status' : string)
  (elapsed' : float64) :
  Reachable latencyBounds s ->
  exists s1 err,
    run (Init latencyBounds a n) s = (s1, Ret err) /\
    run (WorkflowOperationEvent ctx operation component status elapsed) s1 =
      (with_recorded s1
         ({| obs_ctx := ctx;
             obs_tags :=
               [Upsert appIDKey a; Upsert componentKey component;
                Upsert namespaceKey n; Upsert operationKey operation;
                Upsert statusKey status];
             obs_measurement := Int64_M operationCountMeasure 1 |} ::
          (if float64_gt elapsed float64_zero then
             [ {| obs_ctx := ctx;
                  obs_tags :=
                    [Upsert appIDKey a; Upsert componentKey component;
                     Upsert namespaceKey n; Upsert operationKey operation;
                     Upsert statusKey status];
                  obs_measurement :=
                    Float64_M operationLatencyMeasure elapsed |} ]
           else [])),
       Ret tt) /\
    run (ExecutionEvent ctx' component' executionType status' elapsed') s1 =
      (with_recorded s1
         ({| obs_ctx := ctx';
             obs_tags :=
               [Upsert appIDKey a; Upsert componentKey component';
                Upsert namespaceKey n; Upsert executionTypeKey executionType;
                Upsert statusKey status'];
             obs_measurement := Int64_M executionCountMeasure 1 |} ::
          (if float64_gt elapsed' float64_zero then
             [ {| obs_ctx := ctx';
                  obs_tags :=
                    [Upsert appIDKey a; Upsert componentKey component';
                     Upsert namespaceKey n;
                     Upsert executionTypeKey executionType;
                     Upsert statusKey status'];
                  obs_measurement :=
                    Float64_M executionLatencyMeasure elapsed' |} ]
           else [])),
       Ret tt).
Proof.
  intros Hr.
  destruct (Reachable_recorder latencyBounds s Hr)
    as (w & Hw & H1 & H2 & H3 & H4).
  assert (Hh : handles_set w = true).
  { unfold handles_set. rewrite H1, H2, H3, H4. reflexivity. }
  do 2 eexists. split; [apply (Init_run latencyBounds s w a n Hw Hh)|].
  set (s1 := {| recv := Some (initialised a n w) |}).
  assert (Hw1 : recv s1 = Some (initialised a n w)) by reflexivity.
  split.
  - rewrite (WorkflowOperationEvent_run s1 (initialised a n w)
               operationCountMeasure operationLatencyMeasure ctx operation
               component status elapsed Hw1 eq_refl H1 H2).
    unfold with_recorded. rewrite <- app_assoc. reflexivity.
  - rewrite (ExecutionEvent_run s1 (initialised a n w)
               executionCountMeasure executionLatencyMeasure ctx' component'
               executionType status' elapsed' Hw1 eq_refl H3 H4).
    unfold with_recorded. rewrite <- app_assoc. reflexivity.
Qed.

(** A second [Init], with other arguments, before the running example. *)
Lemma Init_then_events_carry_its_arguments_witness :
  Reachable exampleBounds enabled_example /\
  exists s1 err,
    run (Init exampleBounds "a2" "ns2") enabled_example = (s1, Ret err) /\
    run (WorkflowOperationEvent context_Background CreateWorkflow ComponentName
           StatusSuccess elapsed_12_5) s1 =
      (with_recorded s1
         ({| obs_ctx := context_Background;
             obs_tags :=
               [Upsert appIDKey "a2"; Upsert componentKey ComponentName;
                Upsert namespaceKey "ns2"; Upsert operationKey CreateWorkflow;
                Upsert statusKey StatusSuccess];
             obs_measurement := Int64_M operationCountMeasure 1 |} ::
          (if float64_gt elapsed_12_5 float64_zero then
             [ {| obs_ctx := context_Background;
                  obs_tags :=
                    [Upsert appIDKey "a2"; Upsert componentKey ComponentName;
                     Upsert namespaceKey "ns2";
                     Upsert operationKey CreateWorkflow;
                     Upsert statusKey StatusSuccess];
                  obs_measurement :=
                    Float64_M operationLatencyMeasure elapsed_12_5 |} ]
           else [])),
       Ret tt) /\
    run (ExecutionEvent context_Background ComponentName Activity StatusFailed
           float64_zero) s1 =
      (with_recorded s1
         ({| obs_ctx := context_Background;
             obs_tags :=
               [Upsert appIDKey "a2"; Upsert componentKey ComponentName;
                Upsert namespaceKey "ns2"; Upsert executionTypeKey Activity;
                Upsert statusKey StatusFailed];
             obs_measurement := Int64_M executionCountMeasure 1 |} ::
          (if float64_gt float64_zero float64_zero then
             [ {| obs_ctx := context_Background;
                  obs_tags :=
                    [Upsert appIDKey "a2"; Upsert componentKey ComponentName;
                     Upsert namespaceKey "ns2";
                     Upsert executionTypeKey Activity;
                     Upsert statusKey StatusFailed];
                  obs_measurement :=
                    Float64_M executionLatencyMeasure float64_zero |} ]
           else [])),
       Ret tt).
Proof.
  assert (Hr : Reachable exampleBounds enabled_example).
  { exists [], [], [CallInit "a1" "ns1"]. reflexivity. }
  split; [exact Hr|].
  apply (Init_then_events_carry_its_arguments exampleBounds enabled_example
           "a2" "ns2" context_Background CreateWorkflow ComponentName
           StatusSuccess elapsed_12_5 context_Background ComponentName
           Activity StatusFailed float64_zero Hr).
Defined.

(** X7.  No sequence of [Init], [IsEnabled], [WorkflowOperationEvent] and
    [ExecutionEvent] calls on the recorder [newWorkflowMetrics] built
    panics, whatever the backend holds; the receiver stays non-nil and what
    the backend had received before is kept, new observations coming
    after. *)
Theorem call_sequences_never_panic
  (latencyBounds : list Z) (reg : list View) (obs : list Observation)
  (cs : list Call) :
  exists s' w' new,
    run (perform_all latencyBounds cs) (start reg obs) = (s', Ret tt) /\
    recv s' = Some w' /\
    recorded s' = obs ++ new.
Proof.
  destruct (perform_all_trace latencyBounds cs (start reg obs)
              newWorkflowMetrics_literal eq_refl eq_refl)
    as (s' & Hrun & Hw & Hrec).
  exists s', (apply_calls cs newWorkflowMetrics_literal),
    (calls_observations newWorkflowMetrics_literal cs).
  repeat split; assumption.
Qed.

(** X8.  A call sequence run in a reachable world adds as many counter
    increments as it has recorder calls that find the recorder enabled
    (those made before the first [Init] of a disabled recorder add none),
    and as many latency observations as there are such calls with
    [elapsed > 0]; [Init] and [IsEnabled] add nothing. *)
Theorem call_sequence_counts
  (latencyBounds : list Z) (s : World) (cs : list Call) :
  Reachable latencyBounds s ->
  exists s' new,
    run (perform_all latencyBounds cs) s = (s', Ret tt) /\
    recorded s' = recorded s ++ new /\
    length (filter is_increment new) = effective_events (is_enabled s) cs /\
    length (filter is_latency new) = effective_timed_events (is_enabled s) cs.
Proof.
  intros Hr.
  destruct (Reachable_handles_literal latencyBounds s Hr) as (w & Hw & Hh).
  destruct (perform_all_trace latencyBounds cs s w Hw Hh)
    as (s' & Hrun & _ & Hrec).
  exists s', (calls_observations w cs).
  unfold is_enabled. rewrite Hw.
  split; [exact Hrun|]. split; [exact Hrec|]. split.
  - apply calls_observations_increments.
  - apply calls_observations_latencies.
Qed.

(** One event before [Init], then [Init], then a timed and an untimed
    event. *)
Lemma call_sequence_counts_witness :
  Reachable exampleBounds (start [] []) /\
  exists s' new,
    run (perform_all exampleBounds
           [CallExecutionEvent context_Background ComponentName Workflow
              StatusSuccess elapsed_12_5;
            CallInit "a1" "ns1";
            CallWorkflowOperationEvent context_Background CreateWorkflow
              ComponentName StatusSuccess elapsed_12_5;
            CallExecutionEvent context_Background ComponentName Activity
              StatusFailed float64_zero])
        (start [] []) = (s', Ret tt) /\
    recorded s' = recorded (start [] []) ++ new /\
    length (filter is_increment new) = 2 /\
    length (filter is_latency new) = 1.
Proof.
  assert (Hr : Reachable exampleBounds (start [] [])).
  { exists [], [], []. reflexivity. }
  split; [exact Hr|].
  apply (call_sequence_counts exampleBounds (start [] [])
           [CallExecutionEvent context_Background ComponentName Workflow
              StatusSuccess elapsed_12_5;
            CallInit "a1" "ns1";
            CallWorkflowOperationEvent context_Background CreateWorkflow
              ComponentName StatusSuccess elapsed_12_5;
            CallExecutionEvent context_Background ComponentName Activity
              StatusFailed float64_zero] Hr).
Defined.

(** X9.  Every observation a call sequence adds in a reachable world is for
    one of the four measures, and carries, in order, exactly the tag keys
    [Init] declares for the view of that measure: the recorder calls and
    the view registration agree on the dimensions. *)
Theorem recorded_keys_match_views
  (latencyBounds : list Z) (s : World) (cs : list Call) :
  Reachable latencyBounds s ->
  exists s' new,
    run (perform_all latencyBounds cs) s = (s', Ret tt) /\
    recorded s' = recorded s ++ new /\
    Forall (fun o =>
              exists v, In v (workflow_views latencyBounds) /\
                        Name v = obs_measure_name o /\
                        TagKeys v = obs_keys o)
           new.
Proof.
  intros Hr.
  destruct (Reachable_handles_literal latencyBounds s Hr) as (w & Hw & Hh).
  destruct (perform_all_trace latencyBounds cs s w Hw Hh)
    as (s' & Hrun & _ & Hrec).
  exists s', (calls_observations w cs).
  split; [exact Hrun|]. split; [exact Hrec|].
  apply calls_observations_keys.
Qed.

(** The running example after [Init("a1", "ns1")]. *)
Lemma recorded_keys_match_views_witness :
  Reachable exampleBounds enabled_example /\
  exists s' new,
    run (perform_all exampleBounds
           [CallWorkflowOperationEvent context_Background CreateWorkflow
              ComponentName StatusSuccess elapsed_12_5])
        enabled_example = (s', Ret tt) /\
    recorded s' = recorded enabled_example ++ new /\
    Forall (fun o =>
              exists v, In v (workflow_views exampleBounds) /\
                        Name v = obs_measure_name o /\
                        TagKeys v = obs_keys o)
           new.
Proof.
  assert (Hr : Reachable exampleBounds enabled_example).
  { exists [], [], [CallInit "a1" "ns1"]. reflexivity. }
  split; [exact Hr|].
  apply (recorded_keys_match_views exampleBounds enabled_example
           [CallWorkflowOperationEvent context_Background CreateWorkflow
              ComponentName StatusSuccess elapsed_12_5] Hr).
Defined.

(** X10.  Which elapsed times give a latency observation: in an enabled
    reachable world both recorder calls record the latency exactly for
    positive numbers and plus infinity; NaN, both zeros, negative numbers
    and minus infinity give the counter increment alone. *)
Theorem latency_recorded_for_positive_elapsed
  (latencyBounds : list Z) (s : World)
  (ctx : Context) (operation component status : string) (elapsed : float64)
  (ctx' : Context) (component' executionType status' : string)
  (elapsed' : float64) :
  Reachable latencyBounds s ->
  is_enabled s = true ->
  exists w,
    recv s = Some w /\
    run (WorkflowOperationEvent ctx operation component status elapsed) s =
      (with_recorded s
         (operation_count_obs w ctx operation component status ::
            (if float64_positive elapsed
             then [operation_latency_obs w ctx operation component status elapsed]
             else [])),
       Ret tt) /\
    run (ExecutionEvent ctx' component' executionType status' elapsed') s =
      (with_recorded s
         (execution_count_obs w ctx' component' executionType status' ::
            (if float64_positive elapsed'
             then [execution_latency_obs w ctx' component' executionType
                     status' elapsed']
             else [])),
       Ret tt).
Proof.
  intros Hr Hen.
  destruct (Reachable_recorder latencyBounds s Hr)
    as (w & Hw & H1 & H2 & H3 & H4).
  assert (He : enabled w = true).
  { unfold is_enabled in Hen. rewrite Hw in Hen. exact Hen. }
  exists w. split; [exact Hw|].
  rewrite <- !float64_gt_zero_positive. split.
  - rewrite (WorkflowOperationEvent_run s w operationCountMeasure
               operationLatencyMeasure ctx operation component status elapsed
               Hw He H1 H2).
    unfold with_recorded. rewrite <- app_assoc. reflexivity.
  - rewrite (ExecutionEvent_run s w executionCountMeasure
               executionLatencyMeasure ctx' component' executionType status'
               elapsed' Hw He H3 H4).
    unfold with_recorded. rewrite <- app_assoc. reflexivity.
Qed.

(** NaN and plus infinity as elapsed times, after [Init("a1", "ns1")]. *)
Lemma latency_recorded_for_positive_elapsed_witness :
  Reachable exampleBounds enabled_example /\
  is_enabled enabled_example = true /\
  exists w,
    recv enabled_example = Some w /\
    run (WorkflowOperationEvent context_Background CreateWorkflow ComponentName
           StatusSuccess S754_nan) enabled_example =
      (with_recorded enabled_example
         (operation_count_obs w context_Background CreateWorkflow ComponentName
            StatusSuccess ::
            (if float64_positive S754_nan
             then [operation_latency_obs w context_Background CreateWorkflow
                     ComponentName StatusSuccess S754_nan]
             else [])),
       Ret tt) /\
    run (ExecutionEvent context_Background ComponentName Activity StatusFailed
           (S754_infinity false)) enabled_example =
      (with_recorded enabled_example
         (execution_count_obs w context_Background ComponentName Activity
            StatusFailed ::
            (if float64_positive (S754_infinity false)
             then [execution_latency_obs w context_Background ComponentName
                     Activity StatusFailed (S754_infinity false)]
             else [])),
       Ret tt).
Proof.
  assert (Hr : Reachable exampleBounds enabled_example).
  { exists [], [], [CallInit "a1" "ns1"]. reflexivity. }
  split; [exact Hr|]. split; [reflexivity|].
  apply (latency_recorded_for_positive_elapsed exampleBounds enabled_example
           context_Background CreateWorkflow ComponentName StatusSuccess
           S754_nan context_Background ComponentName Activity StatusFailed
           (S754_infinity false) Hr).
  reflexivity.
Defined.

(** * The earlier variant (workflow_metrics.go) *)

Lemma Legacy_IsEnabled_run (s : Legacy.World) :
  Legacy.run Legacy.IsEnabled s =
    (s, Ret (match Legacy.recv s with
             | Some w => Legacy.enabled w
             | None => false
             end)).
Proof. destruct s as [[w|] reg obs]; reflexivity. Qed.

(** [Init] of the earlier variant on a recorder with its handles set. *)
Lemma Legacy_Init_run
  (latencyBounds : list Z) (s : Legacy.World) (w : Legacy.workflowMetrics)
  (a : string) :
  Legacy.recv s = Some w ->
  Legacy.handles_set w = true ->
  Legacy.run (Legacy.Init latencyBounds a) s =
    ({| Legacy.recv := Some (Legacy.initialised a w);
        Legacy.views :=
          fst (register_all (Legacy.init_views latencyBounds w) (Legacy.views s));
        Legacy.recorded := Legacy.recorded s |},
     Ret (snd (register_all (Legacy.init_views latencyBounds w) (Legacy.views s)))).
Proof.
  intros Hw Hh.
  destruct s as [r reg obs]; cbn in Hw; subst r.
  destruct w as [h1 h2 h3 h4 h5 h6 h7 h8 a0 e0].
  unfold Legacy.handles_set in Hh; cbn in Hh.
  destruct h1 as [m1|]; [|discriminate Hh].
  destruct h2 as [m2|]; [|discriminate Hh].
  destruct h3 as [m3|]; [|discriminate Hh].
  destruct h4 as [m4|]; [|discriminate Hh].
  destruct h5 as [m5|]; [|discriminate Hh].
  destruct h6 as [m6|]; [|discriminate Hh].
  destruct h7 as [m7|]; [|discriminate Hh].
  destruct h8 as [m8|]; [|discriminate Hh].
  unfold Legacy.Init, Legacy.run, Legacy.bind, Legacy.store, Legacy.load,
    Legacy.diagUtils_NewMeasureView, Legacy.deref, Legacy.ret,
    Legacy.view_Register, Legacy.init_views, Legacy.initialised.
  cbn -[register_all].
  match goal with
  | |- context [register_all ?vs ?r] => destruct (register_all vs r)
  end.
  reflexivity.
Qed.

Lemma Legacy_workflow_views_NoDup (latencyBounds : list Z) :
  NoDup (map Name (Legacy.workflow_views latencyBounds)).
Proof.
  cbn. repeat constructor; cbn; intuition discriminate.
Qed.

(** X11.  The earlier variant's [Init(appID)], on a recorder with its
    handles set, stores the app id and sets enabled before it registers its
    views, and returns the answer of [view.Register] as it is: also when
    that is an error, [IsEnabled] returns true afterwards.  On the nil
    receiver [Init] panics while [IsEnabled] returns false. *)
Theorem Legacy_Init_enables_whatever_registration_answers
  (latencyBounds : list Z) (s : Legacy.World) (w : Legacy.workflowMetrics)
  (a : string) :
  Legacy.recv s = Some w ->
  Legacy.handles_set w = true ->
  (exists s',
      Legacy.run (Legacy.Init latencyBounds a) s =
        (s', Ret (snd (register_all (Legacy.init_views latencyBounds w)
                         (Legacy.views s)))) /\
      Legacy.recv s' = Some (Legacy.initialised a w) /\
      Legacy.recorded s' = Legacy.recorded s /\
      Legacy.run Legacy.IsEnabled s' = (s', Ret true)) /\
  (forall reg obs,
      Legacy.run (Legacy.Init latencyBounds a) (Legacy.nil_receiver reg obs)
        = (Legacy.nil_receiver reg obs, Panic nil_dereference) /\
      Legacy.run Legacy.IsEnabled (Legacy.nil_receiver reg obs)
        = (Legacy.nil_receiver reg obs, Ret false)).
Proof.
  intros Hw Hh. split.
  - eexists. split; [apply (Legacy_Init_run latencyBounds s w a Hw Hh)|].
    split; [reflexivity|]. split; [reflexivity|].
    rewrite Legacy_IsEnabled_run. reflexivity.
  - intros reg obs. split; reflexivity.
Qed.

(** The earlier variant's [Init("a1")] against a registry that holds the
    later variant's execution-latency view. *)
Lemma Legacy_Init_enables_whatever_registration_answers_witness :
  Legacy.recv (Legacy.start (workflow_views exampleBounds) [])
    = Some Legacy.newWorkflowMetrics_literal /\
  Legacy.handles_set Legacy.newWorkflowMetrics_literal = true /\
  (exists s',
      Legacy.run (Legacy.Init exampleBounds "a1")
        (Legacy.start (workflow_views exampleBounds) []) =
        (s', Ret (snd (register_all
                         (Legacy.init_views exampleBounds
                            Legacy.newWorkflowMetrics_literal)
                         (Legacy.views
                            (Legacy.start (workflow_views exampleBounds) []))))) /\
      Legacy.recv s'
        = Some (Legacy.initialised "a1" Legacy.newWorkflowMetrics_literal) /\
      Legacy.recorded s'
        = Legacy.recorded (Legacy.start (workflow_views exampleBounds) []) /\
      Legacy.run Legacy.IsEnabled s' = (s', Ret true)) /\
  (forall reg obs,
      Legacy.run (Legacy.Init exampleBounds "a1") (Legacy.nil_receiver reg obs)
        = (Legacy.nil_receiver reg obs, Panic nil_dereference) /\
      Legacy.run Legacy.IsEnabled (Legacy.nil_receiver reg obs)
        = (Legacy.nil_receiver reg obs, Ret false)).
Proof.
  split; [reflexivity|]. split; [reflexivity|].
  apply (Legacy_Init_enables_whatever_registration_answers exampleBounds
           (Legacy.start (workflow_views exampleBounds) [])
           Legacy.newWorkflowMetrics_literal "a1");
    reflexivity.
Defined.

(** X12.  On a freshly constructed recorder of the earlier variant and a
    registry in which none of its eight measure names is taken, [Init]
    returns nil and appends exactly its eight views, in source order. *)
Theorem Legacy_Init_registers_eight_views
  (latencyBounds : list Z) (reg : list View) (obs : list Observation)
  (a : string) :
  (forall v, In v (Legacy.workflow_views latencyBounds) ->
             registered (Name v) reg = None) ->
  Legacy.run (Legacy.Init latencyBounds a) (Legacy.start reg obs) =
    ({| Legacy.recv :=
          Some (Legacy.initialised a Legacy.newWorkflowMetrics_literal);
        Legacy.views := reg ++ Legacy.workflow_views latencyBounds;
        Legacy.recorded := obs |},
     Ret None).
Proof.
  intros Hfree.
  rewrite (Legacy_Init_run latencyBounds (Legacy.start reg obs)
             Legacy.newWorkflowMetrics_literal a eq_refl eq_refl).
  change (Legacy.init_views latencyBounds Legacy.newWorkflowMetrics_literal)
    with (Legacy.workflow_views latencyBounds).
  cbn [Legacy.views Legacy.start Legacy.recorded].
  rewrite (register_all_fresh (Legacy.workflow_views latencyBounds) reg
             (Legacy_workflow_views_NoDup latencyBounds) Hfree).
  reflexivity.
Qed.

(** The earlier variant's [Init("a1")] on an empty registry. *)
Lemma Legacy_Init_registers_eight_views_witness :
  (forall v, In v (Legacy.workflow_views exampleBounds) ->
             registered (Name v) [] = None) /\
  Legacy.run (Legacy.Init exampleBounds "a1") (Legacy.start [] []) =
    ({| Legacy.recv :=
          Some (Legacy.initialised "a1" Legacy.newWorkflowMetrics_literal);
        Legacy.views := [] ++ Legacy.workflow_views exampleBounds;
        Legacy.recorded := [] |},
     Ret None).
Proof.
  assert (Hf : forall v, In v (Legacy.workflow_views exampleBounds) ->
                         registered (Name v) [] = None).
  { intros v _. reflexivity. }
  split; [exact Hf|].
  apply (Legacy_Init_registers_eight_views exampleBounds [] [] "a1" Hf).
Defined.
